(** * HousePriceEstimator: the postcode index, the training script and the
    prediction endpoint, embedded from the Python sources.

    Conventions of the embedding.
    - A Python [str] is a [string]; the string methods used by the sources
      ([strip], [upper], [replace]) are given their behaviour on 7-bit ASCII
      text, which is what postcodes and LAD codes are made of.
    - A Python [dict] with string keys is a [gmap string _]; a [dict] whose
      insertion order is observed is an association list.
    - A function that can raise returns a [result]: [Ok v] or [Raise e].
    - Mutable object state (a [PostcodeToBoroughIndex], the module global
      [ART]) is passed in and returned explicitly, also when the call raises.
    - Calls into pandas, scikit-learn, CatBoost, NumPy and joblib are
      parameters of the definitions that make them. *)

From Stdlib Require Import ZArith Ascii String List Bool Lia.
From Stdlib Require Import Floats.
From stdpp Require Import gmap strings list fin_maps.

Local Open Scope nat_scope.

(** * Exceptions and fallible computations *)

Inductive exn : Type :=
| FileNotFoundError (msg : string)
| ValueError (msg : string)
| TypeError (msg : string)
| AttributeError (msg : string)
| NameError (msg : string)
| IndexError (msg : string)
| KeyError (key : string)
| LibraryError (msg : string)
| HTTPException (status_code : Z) (detail : string).

Inductive result (A : Type) : Type :=
| Ok (a : A)
| Raise (e : exn).

Arguments Ok {A} a.
Arguments Raise {A} e.

(** [result] is a monad in the sense of stdpp, which gives the notation
    [x ← r; k] for running [r] and continuing with [k] unless [r] raised,
    and [mapM] for a loop that collects values and stops at the first raise. *)
Global Instance result_ret : MRet result := fun A a => Ok a.

Global Instance result_bind : MBind result := fun A B k r =>
match r with
| Ok a => k a
| Raise e => Raise e
end.

Definition is_ok {A : Type} (r : result A) : bool :=
match r with Ok _ => true | Raise _ => false end.

(** * Python string methods *)

Module PyStr.

(** [str.isspace] on one ASCII character: TAB, LF, VT, FF, CR, the four
    separators FS GS RS US, and the space. *)
Definition isspace (c : ascii) : bool :=
let n := nat_of_ascii c in
((9 <=? n) && (n <=? 13)) || ((28 <=? n) && (n <=? 32)).

Definition is_blank (c : ascii) : bool := Ascii.eqb c " "%char.

Definition is_dquote (c : ascii) : bool := Ascii.eqb c "034"%char.

(** [str.upper] on one ASCII character. *)
Definition upper_char (c : ascii) : ascii :=
let n := nat_of_ascii c in
if (97 <=? n) && (n <=? 122) then ascii_of_nat (n - 32) else c.

(** Drop the longest prefix whose characters satisfy [p]. *)
Fixpoint lstrip_by (p : ascii -> bool) (l : list ascii) : list ascii :=
match l with
| [] => []
| c :: l' => if p c then lstrip_by p l' else l
end.

Definition rstrip_by (p : ascii -> bool) (l : list ascii) : list ascii :=
rev (lstrip_by p (rev l)).

Definition strip_by (p : ascii -> bool) (l : list ascii) : list ascii :=
rstrip_by p (lstrip_by p l).

(** [s.strip()], [s.upper()] and the removal of every space character
    (the call to [s.replace]) on character lists. *)
Definition strip_l (l : list ascii) : list ascii := strip_by isspace l.

Definition upper_l (l : list ascii) : list ascii := map upper_char l.

Definition remove_blanks_l (l : list ascii) : list ascii :=
List.filter (fun c => negb (is_blank c)) l.

Definition lift (f : list ascii -> list ascii) (s : string) : string :=
string_of_list_ascii (f (list_ascii_of_string s)).

Definition strip : string -> string := lift strip_l.

Definition upper : string -> string := lift upper_l.

Definition remove_blanks : string -> string := lift remove_blanks_l.

(** [s.strip] with the double-quote character as its argument. *)
Definition strip_quotes : string -> string := lift (strip_by is_dquote).

(** Truthiness of a [str]: non-empty. *)
Definition truthy (s : string) : bool :=
match s with EmptyString => false | String _ _ => true end.

(** [sep.join(xs)] *)
Fixpoint join (sep : string) (xs : list string) : string :=
match xs with
| [] => EmptyString
| [x] => x
| x :: rest => x +:+ sep +:+ join sep rest
end.

(** [x in xs] for a list of strings. *)
Definition contains (xs : list string) (x : string) : bool :=
existsb (String.eqb x) xs.

End PyStr.

(** * The file system as the scripts see it

    A file is seen in two ways: through [csv.reader], which yields its
    records (each a list of fields), and by iterating over the open file,
    which yields its lines.  [os.path.exists p] is [is_Some (fs !! p)]. *)

Record file : Type := {
  csv_records : list (list string);
  text_lines : list string
}.

Definition exists_path (fs : gmap string file) (p : string) : bool :=
match fs !! p with Some _ => true | None => false end.

(** * scripts/postcode_to_borough.py *)

Definition LONDON_LAD_CODE_TO_NAME : gmap string string :=
list_to_map [
  ("E09000001", "City of London");
  ("E09000002", "Barking and Dagenham");
  ("E09000003", "Barnet");
  ("E09000004", "Bexley");
  ("E09000005", "Brent");
  ("E09000006", "Bromley");
  ("E09000007", "Camden");
  ("E09000008", "Croydon");
  ("E09000009", "Ealing");
  ("E09000010", "Enfield");
  ("E09000011", "Greenwich");
  ("E09000012", "Hackney");
  ("E09000013", "Hammersmith and Fulham");
  ("E09000014", "Haringey");
  ("E09000015", "Harrow");
  ("E09000016", "Havering");
  ("E09000017", "Hillingdon");
  ("E09000018", "Hounslow");
  ("E09000019", "Islington");
  ("E09000020", "Kensington and Chelsea");
  ("E09000021", "Kingston upon Thames");
  ("E09000022", "Lambeth");
  ("E09000023", "Lewisham");
  ("E09000024", "Merton");
  ("E09000025", "Newham");
  ("E09000026", "Redbridge");
  ("E09000027", "Richmond upon Thames");
  ("E09000028", "Southwark");
  ("E09000029", "Sutton");
  ("E09000030", "Tower Hamlets");
  ("E09000031", "Waltham Forest");
  ("E09000032", "Wandsworth");
  ("E09000033", "Westminster")
].

Global Arguments LONDON_LAD_CODE_TO_NAME : simpl never.

Definition DEFAULT_ONSPD_PATH : string := "data/onspd/ONSPD_AUG_2025_UK.csv".

Definition REQUIRED_COLUMNS : list string := ["pcds"; "lad25cd"].

(** [normalize_postcode] on character lists.  [s[:-3]] and [s[-3:]] are
    taken when [len(s) >= 5], where they are the first [len(s) - 3]
    characters and the remaining three. *)
Definition normalize_l (pc : list ascii) : list ascii :=
let s := PyStr.remove_blanks_l (PyStr.upper_l (PyStr.strip_l pc)) in
if length s <? 5 then PyStr.upper_l (PyStr.strip_l pc)
else firstn (length s - 3) s ++ " "%char :: skipn (length s - 3) s.

Definition normalize_postcode : string -> string := PyStr.lift normalize_l.

(** ** csv.DictReader

    [fieldnames] is the first record, or [None] for a file with no record.
    Each later record that is not empty becomes a dict: [dict(zip(fieldnames,
    row))], a later duplicate name overriding an earlier one, and then the
    names a short row leaves out are set to [restval], which is [None]. *)
Definition fieldnames (records : list (list string)) : option (list string) :=
head records.

Definition dict_row (names row : list string) : gmap string (option string) :=
let d := fold_left (fun d kv => <[kv.1 := Some kv.2]> d) (zip names row) ∅ in
fold_left (fun d k => <[k := None]> d) (skipn (length row) names) d.

Definition is_empty_record (row : list string) : bool :=
match row with [] => true | _ :: _ => false end.

Definition dict_rows (names : list string) (records : list (list string))
  : list (gmap string (option string)) :=
map (dict_row names) (List.filter (fun r => negb (is_empty_record r)) records).

(** [row.get(key, default)]: the value stored under [key], which may be
    [None], or [default] when the key is absent. *)
Definition dict_get (d : gmap string (option string)) (key default : string)
  : option string :=
match d !! key with
| Some v => v
| None => Some default
end.

(** [v.strip()] on the result of [row.get]: [None] has no such method. *)
Definition strip_value (v : option string) : result string :=
match v with
| Some s => Ok (PyStr.strip s)
| None => Raise (AttributeError "'NoneType' object has no attribute 'strip'")
end.

Module PostcodeToBoroughIndex.

Record t : Type := {
  onspd_csv_path : string;
  _pcds_to_lad : gmap string string;
  _built : bool
}.

(** [__init__] *)
Definition init (onspd_csv_path : string) : t :=
{| onspd_csv_path := onspd_csv_path; _pcds_to_lad := ∅; _built := false |}.

(** The body of [for row in reader], on the mapping built so far. *)
Definition index_row (row : gmap string (option string)) (m : gmap string string)
  : result unit * gmap string string :=
match strip_value (dict_get row "lad25cd" EmptyString) with
| Raise e => (Raise e, m)
| Ok lad0 =>
    let lad := PyStr.strip_quotes lad0 in
    match LONDON_LAD_CODE_TO_NAME !! lad with
    | None => (Ok tt, m)
    | Some _ =>
        match strip_value (dict_get row "pcds" EmptyString) with
        | Raise e => (Raise e, m)
        | Ok pcds0 =>
            let pcds := PyStr.strip_quotes pcds0 in
            if PyStr.truthy pcds then (Ok tt, <[pcds := lad]> m) else (Ok tt, m)
        end
    end
end.

Fixpoint scan (rows : list (gmap string (option string))) (m : gmap string string)
  : result unit * gmap string string :=
match rows with
| [] => (Ok tt, m)
| row :: rest =>
    match index_row row m with
    | (Ok _, m') => scan rest m'
    | (Raise e, m') => (Raise e, m')
    end
end.

Definition missing_columns (names : list string) : list string :=
List.filter (fun c => negb (PyStr.contains names c)) REQUIRED_COLUMNS.

Definition with_mapping (self : t) (m : gmap string string) (b : bool) : t :=
{| onspd_csv_path := onspd_csv_path self; _pcds_to_lad := m; _built := b |}.

Definition build (fs : gmap string file) (self : t) : result unit * t :=
if _built self then (Ok tt, self)
else
  match fs !! onspd_csv_path self with
  | None =>
      (Raise (FileNotFoundError ("ONSPD file not found: " +:+ onspd_csv_path self)), self)
  | Some f =>
      match fieldnames (csv_records f) with
      | None => (Raise (TypeError "argument of type 'NoneType' is not iterable"), self)
      | Some names =>
          match missing_columns names with
          | (_ :: _) as missing =>
              (Raise (ValueError ("ONSPD file is missing required columns: "
                                  +:+ PyStr.join ", " missing)), self)
          | [] =>
              match scan (dict_rows names (tail (csv_records f))) (_pcds_to_lad self) with
              | (Ok _, m) => (Ok tt, with_mapping self m true)
              | (Raise e, m) => (Raise e, with_mapping self m false)
              end
          end
      end
  end.

Definition postcode_to_borough (fs : gmap string file) (self : t) (postcode : string)
  : result (option string * option string) * t :=
match (if _built self then (Ok tt, self) else build fs self) with
| (Raise e, self') => (Raise e, self')
| (Ok _, self') =>
    let pcds := normalize_postcode postcode in
    match _pcds_to_lad self' !! pcds with
    | None => (Ok (None, None), self')
    | Some lad =>
        if PyStr.truthy lad
        then (Ok (LONDON_LAD_CODE_TO_NAME !! lad, Some lad), self')
        else (Ok (None, None), self')
    end
end.

End PostcodeToBoroughIndex.

(** The module-level [postcode_to_borough]: a fresh index for each call. *)
Definition postcode_to_borough (fs : gmap string file) (postcode onspd_csv_path : string)
  : result (option string * option string) :=
fst (PostcodeToBoroughIndex.postcode_to_borough fs
       (PostcodeToBoroughIndex.init onspd_csv_path) postcode).

(** [describe_onspd_header]: the header is the first record, or the empty
    list when the file has none; only membership in the set of stripped
    column names is used. *)
Definition newline : string := String "010"%char EmptyString.

Definition describe_extras : list (string * string) := [
  ("ctry25cd", "Country code");
  ("rgn25cd", "Region (ITL1)");
  ("pcon24cd", "Westminster constituency code");
  ("wd25cd", "Electoral ward code");
  ("lat", "Latitude");
  ("long", "Longitude")
].

Definition describe_onspd_header (fs : gmap string file) (onspd_csv_path : string) : string :=
match fs !! onspd_csv_path with
| None => "ONSPD file not found: " +:+ onspd_csv_path
| Some f =>
    let header := default [] (head (csv_records f)) in
    let cols := map PyStr.strip header in
    let pieces := [
      "Detected ONSPD columns:";
      "- pcds: Postcode (spaced)";
      "- lad25cd: Local Authority District code (used to identify London boroughs)"
    ] in
    let found := List.filter (fun cd => PyStr.contains cols cd.1) describe_extras in
    PyStr.join newline (pieces ++ map (fun cd => "- " +:+ cd.1 +:+ ": " +:+ cd.2) found)
end.

(** ** The command line: [main]

    [argparse] is not modelled: [main] starts from the parsed arguments.
    What [main] does to the outside is a list of events, in order. *)
Record args : Type := {
  postcodes : list string;
  onspd : string;
  infile : option string;
  outfile : option string;
  describe : bool
}.

Inductive event : Type :=
| Print (line : string)
| PrintErr (line : string)
| PrintHelp
| OpenOut (path : string)
| WriteRow (cells : list string)
| CloseOut.

(** Truthiness of an optional argument: given and not empty. *)
Definition given (o : option string) : option string :=
match o with
| Some s => if PyStr.truthy s then Some s else None
| None => None
end.

(** [v or ""] for an optional string. *)
Definition or_empty (o : option string) : string :=
match o with
| Some s => s
| None => EmptyString
end.

Definition HEADER_ROW : list string := ["postcode"; "borough_name"; "borough_code"].

(** The loop [for pc in inputs], threading the index. *)
Fixpoint write_rows (fs : gmap string file) (index : PostcodeToBoroughIndex.t)
  (inputs : list string) : list event * result unit :=
match inputs with
| [] => ([], Ok tt)
| pc :: rest =>
    match PostcodeToBoroughIndex.postcode_to_borough fs index pc with
    | (Raise e, _) => ([], Raise e)
    | (Ok (borough_name, borough_code), index') =>
        let row := WriteRow [normalize_postcode pc; or_empty borough_name; or_empty borough_code] in
        let '(evs, r) := write_rows fs index' rest in
        (row :: evs, r)
    end
end.

(** The lines of [--infile] that are kept: stripped, blank ones dropped. *)
Definition infile_inputs (lines : list string) : list string :=
List.filter PyStr.truthy (map PyStr.strip lines).

Definition main_lookup (fs : gmap string file) (a : args) (inputs : list string)
  : list event * result Z :=
match inputs with
| [] => if describe a then ([], Ok 0%Z) else ([PrintHelp], Ok 1%Z)
| _ :: _ =>
    match PostcodeToBoroughIndex.build fs (PostcodeToBoroughIndex.init (onspd a)) with
    | (Raise e, _) => ([], Raise e)
    | (Ok _, index) =>
        let opened := match given (outfile a) with Some p => [OpenOut p] | None => [] end in
        let '(rows, r) := write_rows fs index inputs in
        match r with
        | Raise e => (opened ++ WriteRow HEADER_ROW :: rows, Raise e)
        | Ok _ =>
            let closed :=
              match given (outfile a) with
              | Some p => [CloseOut; Print ("Wrote results to " +:+ p)]
              | None => []
              end in
            (opened ++ WriteRow HEADER_ROW :: rows ++ closed, Ok 0%Z)
        end
    end
end.

Definition main (fs : gmap string file) (a : args) : list event * result Z :=
let described :=
  if describe a then [Print (describe_onspd_header fs (onspd a))] else [] in
match given (infile a) with
| Some p =>
    match fs !! p with
    | None => (described ++ [PrintErr ("Input file not found: " +:+ p)], Ok 2%Z)
    | Some f =>
        let '(evs, r) := main_lookup fs a (infile_inputs (text_lines f) ++ postcodes a) in
        (described ++ evs, r)
    end
| None =>
    let '(evs, r) := main_lookup fs a (postcodes a) in
    (described ++ evs, r)
end.

(** The rows handed to [csv.writer], in order. *)
Definition written_rows (evs : list event) : list (list string) :=
omap (fun ev => match ev with WriteRow cells => Some cells | _ => None end) evs.

(** * model.py: the training script *)

Module Train.

(** A pandas cell.  A missing value (NaN, None) in column [c] of a row is
    the absence of [c] from the row. *)
Inductive cell : Type :=
| CStr (s : string)
| CInt (z : Z)
| CFloat (x : float).

Record frame : Type := {
  columns : list string;
  rows : list (gmap string cell)
}.

Definition DATA : string := "data/london_ppd_prepared.parquet".

Definition MODEL_DIR : string := "model".

Definition TARGET : string := "price_paid".

Definition CATS : list string := ["property_type"; "tenure"; "postcode"; "borough"].

Definition NUMS : list string :=
["floor_area"; "bedrooms"; "bathrooms"; "distance_to_station_km";
 "sale_year"; "sale_quarter"; "imd_decile"; "lat"; "lon"].

Definition FEATS : list string := CATS ++ NUMS.

(** ** The pandas operations the script uses *)

Definition has_value (row : gmap string cell) (c : string) : bool :=
match row !! c with Some _ => true | None => false end.

Definition complete (subset : list string) (row : gmap string cell) : bool :=
forallb (has_value row) subset.

Definition missing_labels (df : frame) (labels : list string) : list string :=
List.filter (fun c => negb (PyStr.contains (columns df) c)) labels.

(** [df.dropna(subset=...)]: a label that is no column is a [KeyError]. *)
Definition dropna (subset : list string) (df : frame) : result frame :=
match missing_labels df subset with
| (_ :: _) as missing => Raise (KeyError (PyStr.join ", " missing))
| [] => Ok {| columns := columns df; rows := List.filter (complete subset) (rows df) |}
end.

(** [df[c]] *)
Definition column (df : frame) (c : string) : result (list (option cell)) :=
if PyStr.contains (columns df) c then Ok (map (fun row => row !! c) (rows df))
else Raise (KeyError c).

Definition set_cell (c : string) (row : gmap string cell) (v : option cell) : gmap string cell :=
match v with
| Some x => <[c := x]> row
| None => delete c row
end.

(** [df[c] = values], for values computed row by row from the frame. *)
Definition with_column (c : string) (values : list (option cell)) (df : frame) : frame :=
{| columns := if PyStr.contains (columns df) c then columns df else columns df ++ [c];
   rows := zip_with (set_cell c) (rows df) values |}.

(** [df[labels]] *)
Definition select (labels : list string) (df : frame) : result frame :=
match missing_labels df labels with
| (_ :: _) as missing => Raise (KeyError (PyStr.join ", " missing))
| [] =>
    Ok {| columns := labels;
          rows := map (filter (fun kv : string * cell => PyStr.contains labels kv.1 = true))
                      (rows df) |}
end.

(** [df.iloc[positions]] *)
Definition iloc (positions : list nat) (df : frame) : result frame :=
rs ← mapM (fun i => match rows df !! i with
                    | Some row => Ok row
                    | None => Raise (IndexError "positional indexers are out-of-bounds")
                    end) positions;
Ok {| columns := columns df; rows := rs |}.

(** An elementwise operation on a column keeps a missing value missing. *)
Definition elementwise (f : cell -> result cell) (v : option cell) : result (option cell) :=
match v with
| Some x => y ← f x; Ok (Some y)
| None => Ok None
end.

(** ** CatBoost *)

Record params : Type := {
  depth : Z;
  learning_rate : float;
  loss_function : string;
  n_estimators : Z;
  subsample : float;
  colsample_bylevel : float;
  random_seed : Z;
  od_type : option string;
  od_wait : option Z;
  verbose : bool
}.

(** [Pool(data, label=..., cat_features=...)] *)
Record pool : Type := {
  pool_data : frame;
  pool_label : list (option cell);
  pool_cat_features : list string
}.

(** The binary64 values of the literals [0.05] and [0.8]. *)
Definition float_0_05 : float := 0x1.999999999999ap-5%float.

Definition float_0_8 : float := 0x1.999999999999ap-1%float.

Definition cv_params : params :=
{| depth := 8; learning_rate := float_0_05; loss_function := "MAE";
   n_estimators := 4000; subsample := float_0_8; colsample_bylevel := float_0_8;
   random_seed := 42; od_type := Some "Iter"; od_wait := Some 200%Z; verbose := false |}.

(** At the point where the final regressor is constructed no [final_model]
    exists yet, so the conditional expression takes its [else] value. *)
Definition final_params : params :=
{| depth := 8; learning_rate := float_0_05; loss_function := "MAE";
   n_estimators := 3000; subsample := float_0_8; colsample_bylevel := float_0_8;
   random_seed := 42; od_type := None; od_wait := None; verbose := false |}.

(** [(y // 2) * 2] on one cell of [sale_year]. *)
Definition year_group (floor_divide : float -> float -> float) (y : cell) : result cell :=
match y with
| CInt z => Ok (CInt ((z / 2) * 2))
| CFloat x => Ok (CFloat (PrimFloat.mul (floor_divide x 2%float) 2%float))
| CStr _ => Raise (TypeError "unsupported operand type(s) for //: 'str' and 'int'")
end.


(** ** The library calls and the script

    The script is the module body of the file.  Every call that leaves the
    script (to the file system, scikit-learn, CatBoost, joblib, or a print)
    is recorded, with its arguments, in the order in which it is made. *)
Section Script.

Variable model : Type.

Record artifacts : Type := {
  art_model : model;
  art_features : list string;
  art_cat_features : list string;
  art_num_features : list string;
  art_target : string
}.

Record library : Type := {
  path_mkdir : string -> result unit;
  read_parquet : string -> result frame;
  np_log1p : cell -> result cell;
  np_expm1 : float -> float;
  np_floor_divide : float -> float -> float;
  group_kfold_split : nat -> frame -> list (option cell) -> result (list (list nat * list nat));
  catboost_fit : params -> pool -> option pool -> option bool -> result model;
  catboost_predict : model -> pool -> result (list float);
  mean_absolute_error : list (option cell) -> list float -> result float;
  format_mae : float -> string;
  joblib_dump : artifacts -> string -> result unit
}.

Inductive call : Type :=
| CallMkdir (path : string)
| CallReadParquet (path : string)
| CallSplit (n_splits : nat) (groups : list (option cell))
| CallFit (p : params) (train : pool) (eval_set : option pool) (use_best_model : option bool)
| CallPredict (m : model) (p : pool)
| CallMAE (y_true : list (option cell)) (y_pred : list float)
| CallPrint (line : string)
| CallDump (art : artifacts) (path : string).

(** A run: the calls made so far and the outcome. *)
Record run (A : Type) : Type := Run {
  calls : list call;
  outcome : result A
}.

Arguments Run {A} calls outcome.
Arguments calls {A} r.
Arguments outcome {A} r.

Definition run_ret {A : Type} (a : A) : run A := Run [] (Ok a).

Definition run_bind {A B : Type} (r : run A) (k : A -> run B) : run B :=
match outcome r with
| Ok a => let r' := k a in Run (calls r ++ calls r') (outcome r')
| Raise e => Run (calls r) (Raise e)
end.

(** A step that leaves the script, and a step inside it. *)
Definition external {A : Type} (c : call) (r : result A) : run A := Run [c] r.

Definition internal {A : Type} (r : result A) : run A := Run [] r.

End Script.

Arguments Run {model A} calls outcome.
Arguments calls {model A} r.
Arguments outcome {model A} r.
Arguments run_ret {model A} a.
Arguments run_bind {model A B} r k.
Arguments external {model A} c r.
Arguments internal {model A} r.

Global Instance run_mret {model : Type} : MRet (run model) := fun A a => run_ret a.

Global Instance run_mbind {model : Type} : MBind (run model) := fun A B k r => run_bind r k.

Section TheScript.

Context {model : Type}.

Variable lib : library model.

Definition ARTIFACT_PATH : string := MODEL_DIR +:+ "/house_price_catboost.joblib".

(** [Pool(d[FEATS], label=d["log_price"], cat_features=CATS)] where [d] is
    [df.iloc[positions]], or [df] itself for the final pool. *)
Definition make_pool (df : frame) (positions : option (list nat)) : result pool :=
d ← match positions with
    | Some ps => iloc ps df
    | None => Ok df
    end;
data ← select FEATS d;
label ← column d "log_price";
Ok {| pool_data := data; pool_label := label; pool_cat_features := CATS |}.

(** One turn of the cross-validation loop; [acc] is [(oof, preds)]. *)
Definition cv_fold (df : frame) (acc : list float * list (option cell))
  (fold : list nat * list nat) : run model (list float * list (option cell)) :=
train_pool ← internal (make_pool df (Some fold.1));
valid_pool ← internal (make_pool df (Some fold.2));
m ← external (CallFit model cv_params train_pool (Some valid_pool) (Some true))
      (catboost_fit model lib cv_params train_pool (Some valid_pool) (Some true));
p ← external (CallPredict model m valid_pool) (catboost_predict model lib m valid_pool);
va ← internal (iloc fold.2 df);
y ← internal (column va TARGET);
mret (acc.1 ++ map (np_expm1 model lib) p, acc.2 ++ y).

Fixpoint cv_loop (df : frame) (folds : list (list nat * list nat))
  (acc : list float * list (option cell)) : run model (list float * list (option cell)) :=
match folds with
| [] => mret acc
| fold :: rest => acc' ← cv_fold df acc fold; cv_loop df rest acc'
end.

Definition script : run model unit :=
_ ← external (CallMkdir model MODEL_DIR) (path_mkdir model lib MODEL_DIR);
df0 ← external (CallReadParquet model DATA) (read_parquet model lib DATA);
df1 ← internal (dropna (TARGET :: FEATS) df0);
price ← internal (column df1 TARGET);
log_price ← internal (mapM (elementwise (np_log1p model lib)) price);
let df2 := with_column "log_price" log_price df1 in
years ← internal (column df2 "sale_year");
buckets ← internal (mapM (elementwise (year_group (np_floor_divide model lib))) years);
let df := with_column "year_group" buckets df2 in
groups ← internal (column df "year_group");
folds ← external (CallSplit model 5 groups) (group_kfold_split model lib 5 df groups);
acc ← cv_loop df folds ([], []);
mae ← external (CallMAE model acc.2 acc.1) (mean_absolute_error model lib acc.2 acc.1);
_ ← external (CallPrint model ("OOF MAE: £" +:+ format_mae model lib mae)) (Ok tt);
final_pool ← internal (make_pool df None);
final_model ← external (CallFit model final_params final_pool None None)
                (catboost_fit model lib final_params final_pool None None);
let art := {| art_model := final_model; art_features := FEATS; art_cat_features := CATS;
              art_num_features := NUMS; art_target := TARGET |} in
_ ← external (CallDump model art ARTIFACT_PATH) (joblib_dump model lib art ARTIFACT_PATH);
external (CallPrint model "Saved model → model/house_price_catboost.joblib") (Ok tt).

End TheScript.

End Train.

(** * app/main.py: the prediction endpoint *)

Module App.

Record HouseFeatures : Type := {
  property_type : string;
  tenure : string;
  postcode : string;
  borough : string;
  floor_area : float;
  bedrooms : Z;
  bathrooms : Z;
  distance_to_station_km : float;
  sale_year : Z;
  sale_quarter : Z;
  lat : float;
  lon : float
}.

(** The [Field] constraints: [gt], [lt], [ge] and [le]. *)
Definition validate (x : HouseFeatures) : bool :=
PrimFloat.ltb 5%float (floor_area x) && PrimFloat.ltb (floor_area x) 1000%float
&& (0 <=? bedrooms x)%Z && (bedrooms x <=? 15)%Z
&& (0 <=? bathrooms x)%Z && (bathrooms x <=? 10)%Z
&& PrimFloat.leb 0%float (distance_to_station_km x)
&& PrimFloat.ltb (distance_to_station_km x) 20%float
&& (1995 <=? sale_year x)%Z && (sale_year x <=? 2100)%Z
&& (1 <=? sale_quarter x)%Z && (sale_quarter x <=? 4)%Z.

Inductive value : Type :=
| VStr (s : string)
| VInt (z : Z)
| VFloat (x : float).

Definition FIELDS : list (string * (HouseFeatures -> value)) := [
  ("property_type", fun x => VStr (property_type x));
  ("tenure", fun x => VStr (tenure x));
  ("postcode", fun x => VStr (postcode x));
  ("borough", fun x => VStr (borough x));
  ("floor_area", fun x => VFloat (floor_area x));
  ("bedrooms", fun x => VInt (bedrooms x));
  ("bathrooms", fun x => VInt (bathrooms x));
  ("distance_to_station_km", fun x => VFloat (distance_to_station_km x));
  ("sale_year", fun x => VInt (sale_year x));
  ("sale_quarter", fun x => VInt (sale_quarter x));
  ("lat", fun x => VFloat (lat x));
  ("lon", fun x => VFloat (lon x))
].

Fixpoint assoc {A : Type} (k : string) (l : list (string * A)) : option A :=
match l with
| [] => None
| (k', a) :: rest => if String.eqb k k' then Some a else assoc k rest
end.

(** [getattr(x, k)] for a field name; any other name is taken to be no
    attribute of the model object. *)
Definition getattr (x : HouseFeatures) (k : string) : result value :=
match assoc k FIELDS with
| Some field => Ok (field x)
| None => Raise (AttributeError ("'HouseFeatures' object has no attribute '" +:+ k +:+ "'"))
end.

(** What [joblib.load] can return, as far as [predict] looks into it: a
    dict whose entries are a fitted model (known by what its [predict]
    returns on a matrix of rows), a list of strings, or a string; or an
    object that is no dict. *)
Inductive entry : Type :=
| EModel (model_predict : list (list value) -> result (list float))
| EStrList (l : list string)
| EStr (s : string).

Inductive loaded : Type :=
| LDict (d : gmap string entry)
| LOther.

(** The module global [ART]: unset until [load_model] has run. *)
Record globals : Type := {
  ART : option loaded
}.

Record response : Type := {
  estimated_price_gbp : float;
  explain : list (string * string)
}.

Definition EXPLAIN : list (string * string) := [
  ("area_note", "Estimates reflect borough + proximity to public transport more than fine-grained street effects.");
  ("currency", "GBP");
  ("model", "CatBoostRegressor (MAE on CV shown during training)")
].

(** [d[k] = v] on a dict in insertion order. *)
Fixpoint dict_set (d : list (string * value)) (k : string) (v : value) : list (string * value) :=
match d with
| [] => [(k, v)]
| (k', v') :: rest =>
    if String.eqb k k' then (k', v) :: rest else (k', v') :: dict_set rest k v
end.

(** [str(e)]: the message, and for a [KeyError] the repr of the key. *)
Definition str_of_exn (e : exn) : string :=
match e with
| FileNotFoundError msg | ValueError msg | TypeError msg | AttributeError msg
| NameError msg | IndexError msg | LibraryError msg => msg
| KeyError key => "'" +:+ key +:+ "'"
| HTTPException _ detail => detail
end.

Definition getitem (art : loaded) (key : string) : result entry :=
match art with
| LOther => Raise (TypeError "object is not subscriptable")
| LDict d =>
    match d !! key with
    | Some e => Ok e
    | None => Raise (KeyError key)
    end
end.

(** The names that [for k in feats] goes through. *)
Definition iterate (feats : entry) : result (list string) :=
match feats with
| EStrList l => Ok l
| EStr s => Ok (map (fun c => String c EmptyString) (list_ascii_of_string s))
| EModel _ => Raise (TypeError "'CatBoostRegressor' object is not iterable")
end.

(** The dict comprehension [{k: getattr(x, k) for k in feats}]. *)
Fixpoint comprehension (x : HouseFeatures) (feats : list string)
  (row : list (string * value)) : result (list (string * value)) :=
match feats with
| [] => Ok row
| k :: rest => v ← getattr x k; comprehension x rest (dict_set row k v)
end.

Definition call_predict (m : entry) (X : list (list value)) : result (list float) :=
match m with
| EModel model_predict => model_predict X
| EStrList _ => Raise (AttributeError "'list' object has no attribute 'predict'")
| EStr _ => Raise (AttributeError "'str' object has no attribute 'predict'")
end.

Section Handler.

(** [np.expm1] and [round(_, 2)] on a binary64 number. *)
Variable np_expm1 : float -> float.

Variable round2 : float -> float.

(** The body of the [try]. *)
Definition predict_body (g : globals) (x : HouseFeatures) : result response :=
art ← match ART g with
      | Some art => Ok art
      | None => Raise (NameError "name 'ART' is not defined")
      end;
feats ← getitem art "features";
names ← iterate feats;
row ← comprehension x names [];
let X := [map snd row] in
m ← getitem art "model";
preds ← call_predict m X;
pred_log ← match preds with
           | p :: _ => Ok p
           | [] => Raise (IndexError "index 0 is out of bounds for axis 0 with size 0")
           end;
let price := np_expm1 pred_log in
Ok {| estimated_price_gbp := round2 price; explain := EXPLAIN |}.

(** [predict]: the [try] with its [except Exception]. The global is read
    and never assigned. *)
Definition predict (g : globals) (x : HouseFeatures) : result response * globals :=
match predict_body g x with
| Ok r => (Ok r, g)
| Raise e => (Raise (HTTPException 400 (str_of_exn e)), g)
end.

End Handler.

(** [load_model]: [ART = joblib.load(...)], with what [joblib.load] gives. *)
Definition MODEL_PATH : string := "model/house_price_catboost.joblib".

Definition load_model (joblib_load : string -> result loaded) (g : globals)
  : result unit * globals :=
match joblib_load MODEL_PATH with
| Ok art => (Ok tt, {| ART := Some art |})
| Raise e => (Raise e, g)
end.

(** The object that [joblib.load] gives back for the dict the training
    script dumped, [behaviour] telling what the fitted model predicts. *)
Definition of_artifacts {model : Type}
  (behaviour : model -> list (list value) -> result (list float))
  (a : Train.artifacts model) : loaded :=
LDict (list_to_map [
  ("model", EModel (behaviour (Train.art_model model a)));
  ("features", EStrList (Train.art_features model a));
  ("cat_features", EStrList (Train.art_cat_features model a));
  ("num_features", EStrList (Train.art_num_features model a));
  ("target", EStr (Train.art_target model a))
]).

End App.

(** * scripts/load_data.py

    The expressions of [load_clean_ppd] that work on one cell of a column:
    the postcode key, the code tables, and the fallback London filter.  A
    cell that holds text is a [string]; a missing cell is [None]. *)

Module LoadData.

Definition PROPERTY_TYPE_MAP : gmap string string :=
list_to_map [("D", "Detached"); ("S", "Semi-Detached"); ("T", "Terraced");
             ("F", "Flat/Maisonette"); ("O", "Other")].

Definition YN_MAP : gmap string Z := list_to_map [("Y", 1%Z); ("N", 0%Z)].

Definition TENURE_MAP : gmap string string :=
list_to_map [("F", "Freehold"); ("L", "Leasehold")].

Definition LONDON_PREFIXES : list string :=
["E"; "EC"; "N"; "NW"; "SE"; "SW"; "W"; "WC"; "HA"; "UB"; "TW"; "EN"; "IG"; "RM";
 "DA"; "BR"; "CR"; "SM"; "KT"].

(** The postcode key of a row and of the lookup table: upper case, every
    space removed (nothing is stripped). *)
Definition clean_postcode (s : string) : string :=
PyStr.remove_blanks (PyStr.upper s).

(** [column.map(PROPERTY_TYPE_MAP).fillna("Other")] on one cell. *)
Definition map_property_type (c : option string) : string :=
match c ≫= (fun code => PROPERTY_TYPE_MAP !! code) with
| Some name => name
| None => "Other"
end.

(** [column.map(TENURE_MAP).fillna(column)] on one cell. *)
Definition map_tenure (c : option string) : option string :=
match c ≫= (fun code => TENURE_MAP !! code) with
| Some name => Some name
| None => c
end.

(** [column.map(YN_MAP)] on one cell. *)
Definition map_new_build (c : option string) : option Z :=
c ≫= (fun code => YN_MAP !! code).

(** [s.startswith(prefixes)] for a tuple of prefixes. *)
Definition startswith_any (prefixes : list string) (s : string) : bool :=
existsb (fun p => String.prefix p s) prefixes.

(** The fallback London filter on one postcode key: the built-in prefixes
    and the extra ones.  The order in which the tuple lists them does not
    show in the result. *)
Definition london_mask (extra_postcode_prefixes : list string) (postcode : string) : bool :=
startswith_any (LONDON_PREFIXES ++ extra_postcode_prefixes) postcode.

End LoadData.

(** * Predicates and sample inputs used in the statements *)

(** A character list is trimmed for [p] when neither its first nor its last
    character satisfies [p]: [strip] leaves exactly those lists unchanged. *)
Definition starts_ok (p : ascii -> bool) (l : list ascii) : Prop :=
match l with
| [] => True
| c :: _ => p c = false
end.

Definition trimmed (p : ascii -> bool) (l : list ascii) : Prop :=
starts_ok p l /\ starts_ok p (rev l).

Definition upper_fixed (l : list ascii) : Prop :=
Forall (fun c => PyStr.upper_char c = c) l.

Definition blank_free (l : list ascii) : Prop :=
Forall (fun c => PyStr.is_blank c = false) l.

(** The LAD code [E090000dd] for the two-digit number [i]. *)
Definition digit (d : nat) : string := String (ascii_of_nat (48 + d)) EmptyString.

Definition london_code (i : nat) : string :=
"E090000" +:+ digit (i / 10) +:+ digit (i mod 10).

(** The fixed allow-list: the codes E09000001 to E09000033. *)
Definition allow_listed (code : string) : Prop :=
exists i, 1 <= i <= 33 /\ code = london_code i.

(** Every value of a postcode mapping is a key of the embedded dict. *)
Definition london_values (m : gmap string string) : Prop :=
map_Forall (fun _ lad => is_Some (LONDON_LAD_CODE_TO_NAME !! lad)) m.

(** The [pcds] field of a data row as [build] stores it. *)
Definition clean (s : string) : string := PyStr.strip_quotes (PyStr.strip s).

Definition row_pcds (row : gmap string (option string)) : option string :=
clean <$> dict_get row "pcds" EmptyString.

(** Those fields, over the data rows of a reference file. *)
Definition pcds_values (f : file) : list string :=
omap row_pcds
     (dict_rows (default [] (fieldnames (csv_records f))) (tail (csv_records f))).

(** Which exception, if any, a call ended in. *)
Definition raised_FileNotFoundError {A : Type} (r : result A) : Prop :=
match r with Raise (FileNotFoundError _) => True | _ => False end.

Definition raised_ValueError {A : Type} (r : result A) : Prop :=
match r with Raise (ValueError _) => True | _ => False end.

(** The operations on an index, for sequences of calls. *)
Inductive index_op : Type :=
| OpBuild
| OpLookup (postcode : string).

Definition step_index (ix : PostcodeToBoroughIndex.t) (call : gmap string file * index_op)
  : PostcodeToBoroughIndex.t :=
match call.2 with
| OpBuild => snd (PostcodeToBoroughIndex.build call.1 ix)
| OpLookup p => snd (PostcodeToBoroughIndex.postcode_to_borough call.1 ix p)
end.

(** The inputs [main] collects, when the input file (if any) exists. *)
Definition inputs_of (fs : gmap string file) (a : args) : option (list string) :=
match given (infile a) with
| Some p =>
    match fs !! p with
    | Some f => Some (infile_inputs (text_lines f) ++ postcodes a)
    | None => None
    end
| None => Some (postcodes a)
end.

(** The output row of one input postcode, read off the mapping. *)
Definition expected_row (m : gmap string string) (pc : string) : list string :=
match m !! normalize_postcode pc with
| Some lad => [normalize_postcode pc; or_empty (LONDON_LAD_CODE_TO_NAME !! lad); lad]
| None => [normalize_postcode pc; EmptyString; EmptyString]
end.

(** Sample inputs. *)
Definition onspd_file (records : list (list string)) : file :=
{| csv_records := records; text_lines := [] |}.

Definition sample_onspd : file :=
onspd_file [["pcds"; "oseast1m"; "lad25cd"];
            ["SW1A 1AA"; "529090"; "E09000033"];
            ["E1 6AN"; "533536"; "E09000030"];
            ["M1 1AA"; "384461"; "E08000003"]].

Definition sample_fs : gmap string file := {[ "onspd.csv" := sample_onspd ]}.

Definition sample_index : PostcodeToBoroughIndex.t :=
snd (PostcodeToBoroughIndex.build sample_fs (PostcodeToBoroughIndex.init "onspd.csv")).

(** A reference file whose postcode is not in the ONSPD layout. *)
Definition unspaced_fs : gmap string file :=
{[ "onspd.csv" := onspd_file [["pcds"; "lad25cd"]; ["sw1a1aa"; "E09000033"]] ]}.

Definition sample_args : args :=
{| postcodes := ["e16an"; "M1 1AA"]; onspd := "onspd.csv";
   infile := None; outfile := None; describe := false |}.

(** The dict the training script dumps, for the final model [m]. *)
Definition script_artifacts {model : Type} (m : model) : Train.artifacts model :=
{| Train.art_model := m; Train.art_features := Train.FEATS;
   Train.art_cat_features := Train.CATS; Train.art_num_features := Train.NUMS;
   Train.art_target := Train.TARGET |}.

(** A request that passes validation. *)
Definition sample_request : App.HouseFeatures :=
{| App.property_type := "F"; App.tenure := "L"; App.postcode := "SW1A 1AA";
   App.borough := "Westminster"; App.floor_area := 50%float; App.bedrooms := 1;
   App.bathrooms := 1; App.distance_to_station_km := 0.5%float;
   App.sale_year := 2020; App.sale_quarter := 1;
   App.lat := 51.5%float; App.lon := (-0.125)%float |}.

(** The values of the fields [names] of [x], in the order of [names]. *)
Definition field_values (x : App.HouseFeatures) (names : list string) : list App.value :=
omap (fun k => (fun field => field x) <$> App.assoc k App.FIELDS) names.

(** The rows of a frame restricted to some labels, and frames and pools
    without missing values in them. *)
Definition restrict (labels : list string) (row : gmap string Train.cell)
  : gmap string Train.cell :=
filter (fun kv : string * Train.cell => PyStr.contains labels kv.1 = true) row.

Definition complete_rows (labels : list string) (rows : list (gmap string Train.cell)) : Prop :=
Forall (fun row => Train.complete labels row = true) rows.

Definition pool_complete (p : Train.pool) : Prop :=
complete_rows Train.FEATS (Train.rows (Train.pool_data p)).

(** The rows that survive the filter of the training script. *)
Definition kept_rows (df0 : Train.frame) : list (gmap string Train.cell) :=
List.filter (Train.complete (Train.TARGET :: Train.FEATS)) (Train.rows df0).

Section TrainStatements.

Context {model : Type}.

(** What one turn of the cross-validation loop produces. *)
Record cv_step : Type := {
  step_train : Train.pool;
  step_valid : Train.pool;
  step_model : model;
  step_predicted : list float;
  step_actual : list (option Train.cell)
}.

Definition step_calls (s : cv_step) : list (Train.call model) :=
[Train.CallFit model Train.cv_params (step_train s) (Some (step_valid s)) (Some true);
 Train.CallPredict model (step_model s) (step_valid s)].

Definition fold_step (lib : Train.library model) (df : Train.frame)
  (fold : list nat * list nat) (s : cv_step) : Prop :=
Train.make_pool df (Some fold.1) = Ok (step_train s) /\
Train.make_pool df (Some fold.2) = Ok (step_valid s) /\
Train.catboost_fit model lib Train.cv_params (step_train s) (Some (step_valid s)) (Some true)
= Ok (step_model s) /\
Train.catboost_predict model lib (step_model s) (step_valid s) = Ok (step_predicted s) /\
(va ← Train.iloc fold.2 df; Train.column va Train.TARGET) = Ok (step_actual s).

Definition out_of_fold (lib : Train.library model) (steps : list cv_step) : list float :=
flat_map (fun s => map (Train.np_expm1 model lib) (step_predicted s)) steps.

Definition actual_prices (steps : list cv_step) : list (option Train.cell) :=
flat_map step_actual steps.

End TrainStatements.

(** A small prepared dataset and a library in which every call succeeds. *)
Definition sample_row (year : Z) (lat : option float) : gmap string Train.cell :=
let base : gmap string Train.cell := list_to_map [
  ("price_paid", Train.CInt 450000);
  ("property_type", Train.CStr "F"); ("tenure", Train.CStr "L");
  ("postcode", Train.CStr "E1 6AN"); ("borough", Train.CStr "Tower Hamlets");
  ("floor_area", Train.CFloat 50%float); ("bedrooms", Train.CInt 1);
  ("bathrooms", Train.CInt 1); ("distance_to_station_km", Train.CFloat 0.5%float);
  ("sale_year", Train.CInt year); ("sale_quarter", Train.CInt 2);
  ("imd_decile", Train.CInt 4); ("lon", Train.CFloat (-0.125)%float)
] in
match lat with
| Some x => <["lat" := Train.CFloat x]> base
| None => base
end.

Definition sample_frame : Train.frame :=
{| Train.columns := Train.TARGET :: Train.FEATS;
   Train.rows := [sample_row 2019 (Some 51.5%float); sample_row 2020 None;
                  sample_row 2021 (Some 51.5%float)] |}.

Definition sample_library : Train.library unit :=
{| Train.path_mkdir := fun _ => Ok tt;
   Train.read_parquet := fun _ => Ok sample_frame;
   Train.np_log1p := fun c => Ok c;
   Train.np_expm1 := fun x => x;
   Train.np_floor_divide := fun x _ => x;
   Train.group_kfold_split := fun _ _ _ => Ok [([0], [1]); ([1], [0])];
   Train.catboost_fit := fun _ _ _ _ => Ok tt;
   Train.catboost_predict := fun _ p => Ok (map (fun _ => 13%float) (Train.pool_label p));
   Train.mean_absolute_error := fun _ _ => Ok 0%float;
   Train.format_mae := fun _ => "0";
   Train.joblib_dump := fun _ _ => Ok tt |}.

(** The data rows of a reference file, as [build] iterates over them. *)
Definition data_rows (f : file) : list (gmap string (option string)) :=
dict_rows (default [] (fieldnames (csv_records f))) (tail (csv_records f)).

(** What a data row adds to the mapping: the postcode and the LAD code
    that the loop body stores for it, or nothing (a code outside the
    allow-list, an empty postcode, a missing field). *)
Definition row_entry (row : gmap string (option string)) : option (string * string) :=
match dict_get row "lad25cd" EmptyString with
| Some lad0 =>
    match LONDON_LAD_CODE_TO_NAME !! clean lad0 with
    | Some _ =>
        match dict_get row "pcds" EmptyString with
        | Some pcds0 =>
            if PyStr.truthy (clean pcds0) then Some (clean pcds0, clean lad0) else None
        | None => None
        end
    | None => None
    end
| None => None
end.

(** No later row stores something under the key [k]. *)
Definition not_overridden (k : string) (rows : list (gmap string (option string))) : Prop :=
Forall (fun row => forall lad, row_entry row <> Some (k, lad)) rows.

(** One assignment [m[k] = v] of the loop of [build]. *)
Definition store (m : gmap string string) (kv : string * string) : gmap string string :=
<[kv.1 := kv.2]> m.

(** The calls that write the artifact. *)
Definition is_dump {model : Type} (c : Train.call model) : bool :=
match c with Train.CallDump _ _ _ => true | _ => false end.

(** A library whose dataset has only the target column. *)
Definition narrow_library : Train.library unit :=
{| Train.path_mkdir := Train.path_mkdir unit sample_library;
   Train.read_parquet := fun _ => Ok {| Train.columns := ["price_paid"]; Train.rows := [] |};
   Train.np_log1p := Train.np_log1p unit sample_library;
   Train.np_expm1 := Train.np_expm1 unit sample_library;
   Train.np_floor_divide := Train.np_floor_divide unit sample_library;
   Train.group_kfold_split := Train.group_kfold_split unit sample_library;
   Train.catboost_fit := Train.catboost_fit unit sample_library;
   Train.catboost_predict := Train.catboost_predict unit sample_library;
   Train.mean_absolute_error := Train.mean_absolute_error unit sample_library;
   Train.format_mae := Train.format_mae unit sample_library;
   Train.joblib_dump := Train.joblib_dump unit sample_library |}.

(** * Properties *)

Import PyStr.

Import PostcodeToBoroughIndex.

(** ** String normalization *)

Section Strip.
Variable p : ascii -> bool.

Lemma lstrip_starts_ok l : starts_ok p (lstrip_by p l).
Proof.
  induction l as [|c l IH]; simpl; [exact I|].
  destruct (p c) eqn:E; [exact IH|]. simpl. exact E.
Qed.

Lemma lstrip_id l : starts_ok p l -> lstrip_by p l = l.
Proof. destruct l as [|c l]; simpl; [reflexivity|]. intros ->. reflexivity. Qed.

Lemma lstrip_snoc l c : p c = false -> lstrip_by p (l ++ [c]) = lstrip_by p l ++ [c].
Proof.
  intros Hc. induction l as [|a l IH]; simpl.
  - rewrite Hc. reflexivity.
  - destruct (p a); [exact IH|reflexivity].
Qed.

Lemma rstrip_starts_ok l : starts_ok p l -> starts_ok p (rstrip_by p l).
Proof.
  unfold rstrip_by. destruct l as [|c l]; simpl; [trivial|]. intros Hc.
  rewrite lstrip_snoc by exact Hc. rewrite rev_app_distr. simpl. exact Hc.
Qed.

Lemma strip_trimmed l : trimmed p (strip_by p l).
Proof.
  split.
  - apply rstrip_starts_ok, lstrip_starts_ok.
  - unfold strip_by, rstrip_by. rewrite rev_involutive. apply lstrip_starts_ok.
Qed.

Lemma strip_id l : trimmed p l -> strip_by p l = l.
Proof.
  intros [H1 H2]. unfold strip_by, rstrip_by.
  rewrite (lstrip_id l H1), (lstrip_id (rev l) H2). apply rev_involutive.
Qed.

Lemma strip_idempotent l : strip_by p (strip_by p l) = strip_by p l.
Proof. apply strip_id, strip_trimmed. Qed.
End Strip.

Lemma list_ascii_lift f s : list_ascii_of_string (lift f s) = f (list_ascii_of_string s).
Proof. unfold lift. apply list_ascii_of_string_of_list_ascii. Qed.

Lemma lift_compose f g s : lift f (lift g s) = lift (fun l => f (g l)) s.
Proof. unfold lift. rewrite list_ascii_of_string_of_list_ascii. reflexivity. Qed.

Lemma upper_char_idempotent c : upper_char (upper_char c) = upper_char c.
Proof. destruct c as [[] [] [] [] [] [] [] []]; reflexivity. Qed.

Lemma isspace_upper_char c : isspace (upper_char c) = isspace c.
Proof. destruct c as [[] [] [] [] [] [] [] []]; reflexivity. Qed.

Lemma blank_isspace c : is_blank c = true -> isspace c = true.
Proof. unfold is_blank. intros H%Ascii.eqb_eq. subst c. reflexivity. Qed.

Lemma upper_char_blank c : is_blank (upper_char c) = is_blank c.
Proof. destruct c as [[] [] [] [] [] [] [] []]; reflexivity. Qed.

Lemma upper_l_fixed l : upper_fixed l -> upper_l l = l.
Proof.
  unfold upper_l. induction 1 as [|c l Hc _ IH]; simpl; [reflexivity|].
  rewrite Hc, IH. reflexivity.
Qed.

Lemma upper_l_is_fixed l : upper_fixed (upper_l l).
Proof.
  unfold upper_fixed, upper_l. induction l; simpl; constructor.
  - apply upper_char_idempotent.
  - assumption.
Qed.

Lemma remove_blanks_fixed l : blank_free l -> remove_blanks_l l = l.
Proof.
  unfold remove_blanks_l. induction 1 as [|c l Hc _ IH]; simpl; [reflexivity|].
  rewrite Hc. simpl. rewrite IH. reflexivity.
Qed.

Lemma remove_blanks_free l : blank_free (remove_blanks_l l).
Proof.
  unfold blank_free, remove_blanks_l. induction l as [|c l IH]; simpl; [constructor|].
  destruct (is_blank c) eqn:E; simpl; [exact IH|]. constructor; assumption.
Qed.

Lemma remove_blanks_upper_fixed l : upper_fixed l -> upper_fixed (remove_blanks_l l).
Proof.
  unfold upper_fixed, remove_blanks_l. induction 1 as [|c l Hc _ IH]; simpl; [constructor|].
  destruct (negb (is_blank c)); [constructor|]; assumption.
Qed.

Lemma starts_ok_upper l : starts_ok isspace l -> starts_ok isspace (upper_l l).
Proof. destruct l as [|c l]; simpl; [trivial|]. rewrite isspace_upper_char. trivial. Qed.

Lemma trimmed_upper l : trimmed isspace l -> trimmed isspace (upper_l l).
Proof.
  intros [H1 H2]. split; [apply starts_ok_upper, H1|].
  unfold upper_l. rewrite <- map_rev. apply starts_ok_upper, H2.
Qed.

Lemma starts_ok_remove_blanks l :
  starts_ok isspace l -> starts_ok isspace (remove_blanks_l l).
Proof.
  destruct l as [|c l]; simpl; [trivial|]. intros Hc.
  destruct (is_blank c) eqn:E.
  - apply blank_isspace in E. congruence.
  - simpl. exact Hc.
Qed.

Lemma trimmed_remove_blanks l : trimmed isspace l -> trimmed isspace (remove_blanks_l l).
Proof.
  intros [H1 H2]. split; [apply starts_ok_remove_blanks, H1|].
  unfold remove_blanks_l. rewrite <- filter_rev. apply starts_ok_remove_blanks, H2.
Qed.

(** Putting the space before the last three characters keeps a list of at
    least four characters trimmed. *)
Lemma trimmed_spaced s k :
  0 < k -> k < length s -> trimmed isspace s ->
  trimmed isspace (firstn k s ++ " "%char :: skipn k s).
Proof.
  intros Hk Hlen [H1 H2]. split.
  - destruct s as [|c s]; [simpl in Hlen; lia|].
    destruct k as [|k]; [lia|]. simpl. exact H1.
  - rewrite rev_app_distr. simpl. rewrite <- app_assoc.
    rewrite <- (firstn_skipn k s), rev_app_distr in H2.
    destruct (rev (skipn k s)) as [|c t] eqn:E.
    + apply (f_equal (@length ascii)) in E. rewrite length_rev, length_skipn in E.
      simpl in E. lia.
    + simpl in *. exact H2.
Qed.

Lemma upper_fixed_spaced s k :
  upper_fixed s -> upper_fixed (firstn k s ++ " "%char :: skipn k s).
Proof.
  intros H. apply Forall_app. split.
  - apply Forall_take, H.
  - constructor; [reflexivity|]. apply Forall_drop, H.
Qed.

Lemma remove_blanks_spaced s k :
  blank_free s -> remove_blanks_l (firstn k s ++ " "%char :: skipn k s) = s.
Proof.
  intros H. unfold remove_blanks_l. rewrite List.filter_app. simpl.
  fold (remove_blanks_l (firstn k s)). fold (remove_blanks_l (skipn k s)).
  rewrite !remove_blanks_fixed.
  - apply firstn_skipn.
  - apply Forall_drop, H.
  - apply Forall_take, H.
Qed.

Lemma normalize_l_clean u :
  trimmed isspace u -> upper_fixed u ->
  normalize_l u =
  if length (remove_blanks_l u) <? 5 then u
  else firstn (length (remove_blanks_l u) - 3) (remove_blanks_l u)
       ++ " "%char :: skipn (length (remove_blanks_l u) - 3) (remove_blanks_l u).
Proof.
  intros Hu Hf. unfold normalize_l, strip_l.
  rewrite (strip_id _ _ Hu), (upper_l_fixed _ Hf). reflexivity.
Qed.

Theorem normalize_l_idempotent pc : normalize_l (normalize_l pc) = normalize_l pc.
Proof.
  assert (Hu : trimmed isspace (upper_l (strip_l pc))) by apply trimmed_upper, strip_trimmed.
  assert (Hf : upper_fixed (upper_l (strip_l pc))) by apply upper_l_is_fixed.
  unfold normalize_l at 2 3.
  set (u := upper_l (strip_l pc)) in *.
  set (s := remove_blanks_l u).
  destruct (length s <? 5) eqn:Hlen.
  - rewrite (normalize_l_clean u Hu Hf). fold s. rewrite Hlen. reflexivity.
  - pose proof Hlen as Hge. apply Nat.ltb_ge in Hge.
    rewrite normalize_l_clean.
    + rewrite remove_blanks_spaced by apply remove_blanks_free.
      rewrite Hlen. reflexivity.
    + apply trimmed_spaced; [lia|lia|]. apply trimmed_remove_blanks, Hu.
    + apply upper_fixed_spaced, remove_blanks_upper_fixed, Hf.
Qed.

Theorem normalize_postcode_idempotent p :
  normalize_postcode (normalize_postcode p) = normalize_postcode p.
Proof.
  unfold normalize_postcode. rewrite lift_compose. unfold lift.
  rewrite normalize_l_idempotent. reflexivity.
Qed.

(** The examples of the docstring, a short input, and an input with a
    tab inside. *)
Example normalize_unspaced : normalize_postcode "sw1a1aa" = "SW1A 1AA".
Proof. reflexivity. Qed.

Example normalize_double_space : normalize_postcode "SW1A  1AA" = "SW1A 1AA".
Proof. reflexivity. Qed.

Example normalize_short : normalize_postcode " e 1 " = "E 1".
Proof. reflexivity. Qed.

(** ** The allow-list *)

Lemma london_lookup_allow_listed code name :
  LONDON_LAD_CODE_TO_NAME !! code = Some name -> allow_listed code.
Proof.
  unfold LONDON_LAD_CODE_TO_NAME. intros H%elem_of_list_to_map_2.
  apply (list_elem_of_fmap_2 fst) in H.
  change (code ∈ london_code <$> seq 1 33) in H.
  apply list_elem_of_fmap in H as (i & -> & Hi). apply elem_of_seq in Hi.
  exists i. split; [lia|reflexivity].
Qed.

Lemma allow_listed_lookup code :
  allow_listed code -> is_Some (LONDON_LAD_CODE_TO_NAME !! code).
Proof.
  intros (i & Hi & ->).
  assert (H : Forall (fun i => is_Some (LONDON_LAD_CODE_TO_NAME !! london_code i)) (seq 1 33)).
  { repeat (constructor; [vm_compute; eauto|]). constructor. }
  rewrite Forall_forall in H. apply H, elem_of_seq. lia.
Qed.

(** ** The values of the mapping stay inside the allow-list *)

Lemma index_row_london row m :
  london_values m -> london_values (index_row row m).2.
Proof.
  intros Hm. unfold index_row.
  destruct (strip_value (dict_get row "lad25cd" EmptyString)) as [lad0|e]; [|exact Hm].
  destruct (LONDON_LAD_CODE_TO_NAME !! strip_quotes lad0) as [name|] eqn:Hlad; [|exact Hm].
  destruct (strip_value (dict_get row "pcds" EmptyString)) as [pcds0|e]; [|exact Hm].
  destruct (truthy (strip_quotes pcds0)); [|exact Hm].
  simpl. apply map_Forall_insert_2; [|exact Hm]. rewrite Hlad. eauto.
Qed.

Lemma scan_london rows : forall m,
  london_values m -> london_values (scan rows m).2.
Proof.
  induction rows as [|row rows IH]; intros m Hm; simpl; [exact Hm|].
  pose proof (index_row_london row m Hm) as Hrow.
  destruct (index_row row m) as [[[]|e] m']; simpl in *; [apply IH|]; exact Hrow.
Qed.

Lemma build_london fs ix :
  london_values (_pcds_to_lad ix) -> london_values (_pcds_to_lad (build fs ix).2).
Proof.
  intros Hm. unfold build.
  destruct (_built ix); [exact Hm|].
  destruct (fs !! onspd_csv_path ix) as [f|]; [|exact Hm].
  destruct (fieldnames (csv_records f)) as [names|]; [|exact Hm].
  destruct (missing_columns names); [|exact Hm].
  pose proof (scan_london (dict_rows names (tail (csv_records f))) _ Hm) as Hs.
  destruct (scan _ _) as [[[]|e] m']; exact Hs.
Qed.

Lemma lookup_london fs ix p :
  london_values (_pcds_to_lad ix) ->
  london_values (_pcds_to_lad (postcode_to_borough fs ix p).2).
Proof.
  intros Hm. unfold postcode_to_borough.
  assert (H : london_values (_pcds_to_lad
            (if _built ix then (Ok (), ix) else build fs ix).2)).
  { destruct (_built ix); [exact Hm|]. apply build_london, Hm. }
  destruct (if _built ix then (Ok (), ix) else build fs ix) as [[[]|e] ix']; simpl in *;
    [|exact H].
  destruct (_pcds_to_lad ix' !! normalize_postcode p) as [lad|]; [|exact H].
  destruct (truthy lad); exact H.
Qed.

(** The shape of a lookup result on a mapping inside the allow-list. *)
Lemma lookup_shape fs ix p :
  london_values (_pcds_to_lad ix) ->
  match (postcode_to_borough fs ix p).1 with
  | Ok (None, None) => True
  | Ok (Some name, Some code) =>
      allow_listed code /\ LONDON_LAD_CODE_TO_NAME !! code = Some name
  | Ok _ => False
  | Raise _ => _built ix = false
  end.
Proof.
  intros Hm. unfold postcode_to_borough.
  assert (H : london_values (_pcds_to_lad
            (if _built ix then (Ok (), ix) else build fs ix).2)).
  { destruct (_built ix); [exact Hm|]. apply build_london, Hm. }
  destruct (_built ix) eqn:Hb.
  - simpl in H. cbn [fst snd].
    destruct (_pcds_to_lad ix !! normalize_postcode p) as [lad|] eqn:Hk; [|exact I].
    destruct (truthy lad); [|exact I]. cbn [fst].
    destruct (H _ _ Hk) as [name Hname]. rewrite Hname.
    split; [exact (london_lookup_allow_listed _ _ Hname)|reflexivity].
  - destruct (build fs ix) as [[[]|e] ix']; simpl in H; [|reflexivity].
    destruct (_pcds_to_lad ix' !! normalize_postcode p) as [lad|] eqn:Hk; [|exact I].
    destruct (truthy lad); [|exact I]. cbn [fst].
    destruct (H _ _ Hk) as [name Hname]. rewrite Hname.
    split; [exact (london_lookup_allow_listed _ _ Hname)|reflexivity].
Qed.

Lemma build_ok_built fs ix ix' : build fs ix = (Ok tt, ix') -> _built ix' = true.
Proof.
  unfold build. destruct (_built ix) eqn:Hb.
  - intros [= <-]. exact Hb.
  - destruct (fs !! onspd_csv_path ix) as [f|]; [|discriminate].
    destruct (fieldnames (csv_records f)) as [names|]; [|discriminate].
    destruct (missing_columns names); [|discriminate].
    destruct (scan _ _) as [[[]|e] m']; [|discriminate].
    intros [= <-]. reflexivity.
Qed.

(** C1.  After [build] has completed on an index that was just created,
    for any file system, every value stored in the mapping is one of the 33
    codes E09000001 to E09000033, and every later lookup returns either
    [(None, None)] or a pair [(name, code)] where [code] is one of those
    codes and [name] is the borough name the embedded dict gives it. *)
Theorem index_values_in_allow_list fs path ix :
  build fs (init path) = (Ok tt, ix) ->
  (forall k lad, _pcds_to_lad ix !! k = Some lad -> allow_listed lad) /\
  (forall fs' p,
      (postcode_to_borough fs' ix p).1 = Ok (None, None) \/
      exists name code,
        (postcode_to_borough fs' ix p).1 = Ok (Some name, Some code) /\
        allow_listed code /\ LONDON_LAD_CODE_TO_NAME !! code = Some name).
Proof.
  intros Hb.
  assert (Hm : london_values (_pcds_to_lad ix)).
  { pose proof (build_london fs (init path)) as H. rewrite Hb in H. apply H.
    simpl. apply map_Forall_empty. }
  split.
  - intros k lad Hk. destruct (Hm _ _ Hk) as [name Hname].
    exact (london_lookup_allow_listed _ _ Hname).
  - intros fs' p. pose proof (lookup_shape fs' ix p Hm) as H.
    destruct (postcode_to_borough fs' ix p).1 as [[[name|] [code|]]|e]; try contradiction.
    + right. exists name, code. tauto.
    + left. reflexivity.
    + apply build_ok_built in Hb. congruence.
Qed.

Lemma index_values_in_allow_list_witness :
  (forall k lad, _pcds_to_lad sample_index !! k = Some lad -> allow_listed lad) /\
  (forall fs' p,
      (postcode_to_borough fs' sample_index p).1 = Ok (None, None) \/
      exists name code,
        (postcode_to_borough fs' sample_index p).1 = Ok (Some name, Some code) /\
        allow_listed code /\ LONDON_LAD_CODE_TO_NAME !! code = Some name).
Proof.
  apply (index_values_in_allow_list sample_fs "onspd.csv" sample_index).
  vm_compute. reflexivity.
Defined.

(** ** Lookups normalize their argument *)

(** C2.  A lookup of [p] gives the same result, and leaves the same index
    state, as a lookup of [normalize_postcode p]; hence two inputs with the
    same normal form (inputs that differ in letter case or in spacing that
    normalization removes) give the same lookup result. *)
Theorem lookup_after_normalization fs ix :
  (forall p,
      postcode_to_borough fs ix p = postcode_to_borough fs ix (normalize_postcode p)) /\
  (forall p q,
      normalize_postcode p = normalize_postcode q ->
      postcode_to_borough fs ix p = postcode_to_borough fs ix q).
Proof.
  split.
  - intros p. unfold postcode_to_borough.
    rewrite normalize_postcode_idempotent. reflexivity.
  - intros p q Hpq. unfold postcode_to_borough. rewrite Hpq. reflexivity.
Qed.

Lemma lookup_after_normalization_witness :
  normalize_postcode "sw1a1aa" = normalize_postcode "SW1A  1AA" /\
  postcode_to_borough sample_fs sample_index "sw1a1aa"
  = postcode_to_borough sample_fs sample_index "SW1A  1AA".
Proof.
  split; [reflexivity|].
  apply (proj2 (lookup_after_normalization sample_fs sample_index)).
  reflexivity.
Defined.

Example lookup_sample :
  (postcode_to_borough sample_fs sample_index "sw1a1aa").1
  = Ok (Some "Westminster", Some "E09000033").
Proof. vm_compute. reflexivity. Qed.

(** ** A built index is never changed *)

Lemma build_built fs ix : _built ix = true -> build fs ix = (Ok tt, ix).
Proof. intros Hb. unfold build. rewrite Hb. reflexivity. Qed.

Lemma lookup_built fs ix p :
  _built ix = true ->
  postcode_to_borough fs ix p =
  (match _pcds_to_lad ix !! normalize_postcode p with
   | Some lad =>
       if truthy lad then Ok (LONDON_LAD_CODE_TO_NAME !! lad, Some lad) else Ok (None, None)
   | None => Ok (None, None)
   end, ix).
Proof.
  intros Hb. unfold postcode_to_borough. rewrite Hb.
  destruct (_pcds_to_lad ix !! normalize_postcode p) as [lad|]; [|reflexivity].
  destruct (truthy lad); reflexivity.
Qed.

Lemma step_built ix call : _built ix = true -> step_index ix call = ix.
Proof.
  intros Hb. destruct call as [fs [|p]]; unfold step_index; cbn [fst snd].
  - rewrite build_built by exact Hb. reflexivity.
  - rewrite lookup_built by exact Hb. reflexivity.
Qed.

(** C7.  On an index whose build has completed: a further [build] is a
    no-op that returns normally, a lookup leaves the index state (mapping
    and built flag) as it was, and so does any sequence of further builds
    and lookups, whatever the file system holds by then. *)
Theorem built_index_is_frozen ix :
  _built ix = true ->
  (forall fs, build fs ix = (Ok tt, ix)) /\
  (forall fs p, (postcode_to_borough fs ix p).2 = ix) /\
  (forall calls, fold_left step_index calls ix = ix).
Proof.
  intros Hb. split; [|split].
  - intros fs. apply build_built, Hb.
  - intros fs p. rewrite lookup_built by exact Hb. reflexivity.
  - intros calls. induction calls as [|call calls IH]; [reflexivity|].
    cbn [fold_left]. rewrite step_built by exact Hb. exact IH.
Qed.

Lemma built_index_is_frozen_witness :
  _built sample_index = true /\
  (forall fs, build fs sample_index = (Ok tt, sample_index)) /\
  (forall fs p, (postcode_to_borough fs sample_index p).2 = sample_index) /\
  (forall calls, fold_left step_index calls sample_index = sample_index).
Proof.
  split; [reflexivity|]. apply (built_index_is_frozen sample_index). reflexivity.
Defined.

(** ** The errors of [build] *)

Lemma contains_In xs x : contains xs x = true <-> In x xs.
Proof.
  unfold contains. rewrite existsb_exists. split.
  - intros (y & Hy & Heq). apply String.eqb_eq in Heq. subst y. exact Hy.
  - intros Hx. exists x. split; [exact Hx|]. apply String.eqb_refl.
Qed.

Lemma missing_columns_nil names :
  missing_columns names = [] <-> (forall c, In c REQUIRED_COLUMNS -> In c names).
Proof.
  unfold missing_columns. split.
  - intros Hnil c Hc.
    destruct (contains names c) eqn:E; [apply contains_In, E|].
    assert (Hin : In c (List.filter (fun c => negb (contains names c)) REQUIRED_COLUMNS)).
    { apply filter_In. split; [exact Hc|]. rewrite E. reflexivity. }
    rewrite Hnil in Hin. destruct Hin.
  - intros Hall.
    destruct (List.filter _ REQUIRED_COLUMNS) as [|c rest] eqn:E; [reflexivity|].
    assert (Hin : In c (List.filter (fun c => negb (contains names c)) REQUIRED_COLUMNS)).
    { rewrite E. left. reflexivity. }
    apply filter_In in Hin as [Hc Hneg].
    apply Hall, contains_In in Hc. rewrite Hc in Hneg. discriminate.
Qed.

Lemma index_row_raises row m e m' :
  index_row row m = (Raise e, m') -> exists msg, e = AttributeError msg.
Proof.
  unfold index_row, strip_value.
  destruct (dict_get row "lad25cd" EmptyString) as [lad0|].
  - destruct (LONDON_LAD_CODE_TO_NAME !! strip_quotes (strip lad0)); [|discriminate].
    destruct (dict_get row "pcds" EmptyString) as [pcds0|].
    + destruct (truthy (strip_quotes (strip pcds0))); discriminate.
    + intros [= <- _]. eauto.
  - intros [= <- _]. eauto.
Qed.

Lemma scan_raises rows : forall m e m',
  scan rows m = (Raise e, m') -> exists msg, e = AttributeError msg.
Proof.
  induction rows as [|row rows IH]; intros m e m'; cbn [scan]; [discriminate|].
  destruct (index_row row m) as [[[]|e0] m0] eqn:Hrow.
  - apply IH.
  - intros [= <- _]. eapply index_row_raises, Hrow.
Qed.

Lemma missing_columns_cons names c rest :
  missing_columns names = c :: rest -> In c REQUIRED_COLUMNS /\ ~ In c names.
Proof.
  unfold missing_columns. intros E.
  assert (Hin : In c (List.filter (fun c => negb (contains names c)) REQUIRED_COLUMNS)).
  { rewrite E. left. reflexivity. }
  apply filter_In in Hin as [Hc Hneg]. split; [exact Hc|].
  intros Hn. apply contains_In in Hn. rewrite Hn in Hneg. discriminate.
Qed.

(** What [build] does on an index that is not built, case by case. *)
Lemma build_unbuilt fs ix :
  _built ix = false ->
  match fs !! onspd_csv_path ix with
  | None => exists msg, build fs ix = (Raise (FileNotFoundError msg), ix)
  | Some f =>
      match fieldnames (csv_records f) with
      | None => exists msg, build fs ix = (Raise (TypeError msg), ix)
      | Some names =>
          match missing_columns names with
          | _ :: _ => exists msg, build fs ix = (Raise (ValueError msg), ix)
          | [] =>
              (build fs ix).1 = Ok tt \/
              exists msg, (build fs ix).1 = Raise (AttributeError msg)
          end
      end
  end.
Proof.
  intros Hb. unfold build. rewrite Hb.
  destruct (fs !! onspd_csv_path ix) as [f|]; [|eauto].
  destruct (fieldnames (csv_records f)) as [names|]; [|eauto].
  destruct (missing_columns names) as [|c rest]; [|eauto].
  destruct (scan _ _) as [[[]|e] m] eqn:Hs; cbn [fst]; [left; reflexivity|].
  right. apply scan_raises in Hs as [msg ->]. eauto.
Qed.

(** C9, as amended.  On an index that is not built yet, [build] raises
    [FileNotFoundError] exactly when the configured path does not exist;
    when the file exists and has a header record, it raises [ValueError]
    exactly when that header lacks [pcds] or [lad25cd]; a [ValueError] is
    raised only for a file that exists; and after either error the index
    state is what it was before the call.  On a built index [build]
    returns at once, whatever the path. *)
Theorem build_errors fs ix :
  (_built ix = false ->
   (raised_FileNotFoundError (build fs ix).1 <-> fs !! onspd_csv_path ix = None) /\
   (forall f names,
       fs !! onspd_csv_path ix = Some f ->
       fieldnames (csv_records f) = Some names ->
       (raised_ValueError (build fs ix).1 <->
        exists c, In c REQUIRED_COLUMNS /\ ~ In c names)) /\
   (raised_ValueError (build fs ix).1 -> is_Some (fs !! onspd_csv_path ix)) /\
   (raised_FileNotFoundError (build fs ix).1 \/ raised_ValueError (build fs ix).1 ->
    (build fs ix).2 = ix)) /\
  (_built ix = true -> build fs ix = (Ok tt, ix)).
Proof.
  split; [|apply build_built].
  intros Hb. pose proof (build_unbuilt fs ix Hb) as H.
  destruct (fs !! onspd_csv_path ix) as [f|] eqn:Hf.
  - destruct (fieldnames (csv_records f)) as [names|] eqn:Hn.
    + destruct (missing_columns names) as [|c0 rest] eqn:Hmiss.
      * assert (Hnone : ~ raised_FileNotFoundError (build fs ix).1 /\
                        ~ raised_ValueError (build fs ix).1).
        { destruct H as [-> | [msg ->]]; cbn; tauto. }
        destruct Hnone as [Hnf Hnv].
        split; [|split; [|split]].
        -- split; [tauto|discriminate].
        -- intros f' names' Hf' Hn'. assert (f' = f) as -> by congruence.
           assert (names' = names) as -> by congruence.
           split; [tauto|]. intros (c & Hc & Hnot). exfalso. apply Hnot.
           apply (proj1 (missing_columns_nil names) Hmiss c Hc).
        -- tauto.
        -- tauto.
      * destruct H as [msg ->]. cbn.
        split; [|split; [|split]].
        -- split; [intros []|discriminate].
        -- intros f' names' Hf' Hn'. assert (f' = f) as -> by congruence.
           assert (names' = names) as -> by congruence.
           split; [|intros _; exact I].
           intros _. exists c0. eapply missing_columns_cons, Hmiss.
        -- intros _. eauto.
        -- intros _. reflexivity.
    + destruct H as [msg ->]. cbn. split; [|split; [|split]].
      * split; [intros []|discriminate].
      * intros f' names' Hf' Hn'. congruence.
      * intros [].
      * intros [[]|[]].
  - destruct H as [msg ->]. cbn. split; [|split; [|split]].
    + split; [reflexivity|intros _; exact I].
    + intros f' names'. discriminate.
    + intros [].
    + intros _. reflexivity.
Qed.

Lemma build_errors_witness :
  _built (init "nowhere.csv") = false /\
  raised_FileNotFoundError (build sample_fs (init "nowhere.csv")).1 /\
  (build sample_fs (init "nowhere.csv")).2 = init "nowhere.csv".
Proof.
  split; [reflexivity|].
  pose proof (proj1 (build_errors sample_fs (init "nowhere.csv")) eq_refl)
    as (Hnf & _ & _ & Hsame).
  assert (Hr : raised_FileNotFoundError (build sample_fs (init "nowhere.csv")).1).
  { apply Hnf. reflexivity. }
  split; [exact Hr|]. apply Hsame. left. exact Hr.
Defined.

(** C9 as stated fails on a built index: the reference file is gone, and
    [build] returns normally instead of raising [FileNotFoundError]. *)
Lemma build_errors_counterexample :
  build sample_fs (init "onspd.csv") = (Ok tt, sample_index) /\
  (∅ : gmap string file) !! onspd_csv_path sample_index = None /\
  build ∅ sample_index = (Ok tt, sample_index).
Proof. vm_compute. repeat split; reflexivity. Qed.

(** An existing file with no record at all: no header has the required
    columns, and [build] ends in a [TypeError], not a [ValueError]. *)
Example build_empty_file :
  build {[ "onspd.csv" := onspd_file [] ]} (init "onspd.csv")
  = (Raise (TypeError "argument of type 'NoneType' is not iterable"), init "onspd.csv").
Proof. vm_compute. reflexivity. Qed.

(** A data row shorter than the header: [build] ends in an
    [AttributeError], with the rows before it already stored and the index
    not marked as built. *)
Example build_short_row :
  let fs : gmap string file :=
    {[ "onspd.csv" := onspd_file [["pcds"; "lad25cd"]; ["E1 6AN"; "E09000030"]; ["N1 9GU"]] ]} in
  (build fs (init "onspd.csv")).1
  = Raise (AttributeError "'NoneType' object has no attribute 'strip'") /\
  _pcds_to_lad (build fs (init "onspd.csv")).2 !! "E1 6AN" = Some "E09000030" /\
  _built (build fs (init "onspd.csv")).2 = false.
Proof. vm_compute. repeat split; reflexivity. Qed.

(** ** Where the keys of the mapping come from *)

Lemma index_row_keys row m k :
  is_Some ((index_row row m).2 !! k) ->
  is_Some (m !! k) \/ (row_pcds row = Some k /\ truthy k = true).
Proof.
  unfold index_row, strip_value, row_pcds, clean.
  destruct (dict_get row "lad25cd" EmptyString) as [lad0|]; [|cbn; tauto].
  destruct (LONDON_LAD_CODE_TO_NAME !! strip_quotes (strip lad0)); [|cbn; tauto].
  destruct (dict_get row "pcds" EmptyString) as [pcds0|]; [|cbn; tauto].
  destruct (truthy (strip_quotes (strip pcds0))) eqn:Ht; [|cbn; tauto].
  cbn [snd fmap option_fmap option_map].
  destruct (decide (strip_quotes (strip pcds0) = k)) as [<-|Hne].
  - intros _. right. split; [reflexivity|exact Ht].
  - rewrite lookup_insert_ne by exact Hne. tauto.
Qed.

Lemma scan_keys rows : forall m k,
  is_Some ((scan rows m).2 !! k) ->
  is_Some (m !! k) \/ (k ∈ omap row_pcds rows /\ truthy k = true).
Proof.
  induction rows as [|row rows IH]; intros m k; cbn [scan]; [tauto|].
  pose proof (index_row_keys row m k) as Hrow.
  destruct (index_row row m) as [[[]|e] m0]; cbn [snd] in *.
  - intros Hk. apply IH in Hk as [Hk|[Hk Ht]].
    + apply Hrow in Hk as [Hk|[Hk Ht]]; [tauto|].
      right. split; [|exact Ht]. cbn [omap list_omap]. rewrite Hk. left.
    + right. split; [|exact Ht]. cbn [omap list_omap].
      destruct (row_pcds row); [right|]; exact Hk.
  - intros Hk. apply Hrow in Hk as [Hk|[Hk Ht]]; [tauto|].
    right. split; [|exact Ht]. cbn [omap list_omap]. rewrite Hk. left.
Qed.

Lemma truthy_nonempty s : truthy s = true -> s <> EmptyString.
Proof. destruct s; [discriminate|]. intros _. discriminate. Qed.

(** C3, as amended.  After [build] has completed on an index that was
    just created, every key of the mapping is the [pcds] field of a data
    row of the reference file, with surrounding whitespace and then
    surrounding double quotes removed, and is not empty; [build] does not
    normalize it.  So every key is in normalized form whenever those
    [pcds] values of the file are. *)
Theorem index_keys_are_pcds_fields fs path ix :
  build fs (init path) = (Ok tt, ix) ->
  exists f,
    fs !! path = Some f /\
    (forall k, is_Some (_pcds_to_lad ix !! k) ->
               k ∈ pcds_values f /\ k <> EmptyString) /\
    (Forall (fun k => normalize_postcode k = k) (pcds_values f) ->
     forall k, is_Some (_pcds_to_lad ix !! k) -> normalize_postcode k = k).
Proof.
  unfold build. cbn [_built init onspd_csv_path _pcds_to_lad].
  destruct (fs !! path) as [f|]; [|discriminate].
  destruct (fieldnames (csv_records f)) as [names|] eqn:Hn; [|discriminate].
  destruct (missing_columns names); [|discriminate].
  destruct (scan _ _) as [[[]|e] m] eqn:Hs; [|discriminate].
  intros [= <-]. exists f. split; [reflexivity|].
  assert (Hkeys : forall k, is_Some (m !! k) -> k ∈ pcds_values f /\ k <> EmptyString).
  { intros k Hk.
    pose proof (scan_keys (dict_rows names (tail (csv_records f))) ∅ k) as H.
    rewrite Hs in H. apply H in Hk as [Hk|[Hk Ht]].
    - rewrite lookup_empty in Hk. destruct Hk as [? [=]].
    - split; [|apply truthy_nonempty, Ht].
      unfold pcds_values. rewrite Hn. exact Hk. }
  split; [exact Hkeys|].
  intros Hall k Hk. rewrite Forall_forall in Hall. apply Hall, Hkeys, Hk.
Qed.

Lemma index_keys_are_pcds_fields_witness :
  exists f,
    sample_fs !! "onspd.csv" = Some f /\
    (forall k, is_Some (_pcds_to_lad sample_index !! k) ->
               k ∈ pcds_values f /\ k <> EmptyString) /\
    (Forall (fun k => normalize_postcode k = k) (pcds_values f) ->
     forall k, is_Some (_pcds_to_lad sample_index !! k) -> normalize_postcode k = k).
Proof.
  apply (index_keys_are_pcds_fields sample_fs "onspd.csv" sample_index).
  vm_compute. reflexivity.
Defined.

(** C3 as stated fails: the reference file gives a postcode without its
    space and in lower case, [build] stores it as it is, and the stored key
    is not its own normal form (so a lookup of that postcode finds
    nothing). *)
Lemma index_keys_counterexample :
  (build unspaced_fs (init "onspd.csv")).1 = Ok tt /\
  _pcds_to_lad (build unspaced_fs (init "onspd.csv")).2 !! "sw1a1aa" = Some "E09000033" /\
  normalize_postcode "sw1a1aa" = "SW1A 1AA" /\
  normalize_postcode "sw1a1aa" <> "sw1a1aa" /\
  (postcode_to_borough unspaced_fs (build unspaced_fs (init "onspd.csv")).2 "sw1a1aa").1
  = Ok (None, None).
Proof. vm_compute. repeat split; try reflexivity. discriminate. Qed.

(** ** The rows written by [main] *)

Lemma london_no_empty_code : LONDON_LAD_CODE_TO_NAME !! EmptyString = None.
Proof. vm_compute. reflexivity. Qed.

Lemma truthy_false s : truthy s = false -> s = EmptyString.
Proof. destruct s; [reflexivity|discriminate]. Qed.

Lemma write_rows_built fs ix inputs :
  _built ix = true ->
  write_rows fs ix inputs
  = (map (fun pc => WriteRow (expected_row (_pcds_to_lad ix) pc)) inputs, Ok tt).
Proof.
  intros Hb. induction inputs as [|pc rest IH]; [reflexivity|].
  cbn [write_rows map]. rewrite (lookup_built fs ix pc Hb), IH.
  unfold expected_row.
  destruct (_pcds_to_lad ix !! normalize_postcode pc) as [lad|]; [|reflexivity].
  destruct (truthy lad) eqn:Ht; [reflexivity|].
  apply truthy_false in Ht. subst lad. rewrite london_no_empty_code. reflexivity.
Qed.

Lemma written_rows_app evs evs' :
  written_rows (evs ++ evs') = written_rows evs ++ written_rows evs'.
Proof. unfold written_rows. apply omap_app. Qed.

Lemma written_rows_rows (rows : list (list string)) :
  written_rows (map WriteRow rows) = rows.
Proof.
  induction rows as [|r rows IH]; [reflexivity|].
  cbn. f_equal. exact IH.
Qed.

Lemma main_lookup_rows fs a inputs ix :
  inputs <> [] ->
  build fs (init (onspd a)) = (Ok tt, ix) ->
  written_rows (main_lookup fs a inputs).1
  = HEADER_ROW :: map (expected_row (_pcds_to_lad ix)) inputs /\
  (main_lookup fs a inputs).2 = Ok 0%Z.
Proof.
  intros Hne Hbuild. unfold main_lookup.
  destruct inputs as [|pc rest]; [congruence|].
  rewrite Hbuild. rewrite (write_rows_built fs ix (pc :: rest) (build_ok_built _ _ _ Hbuild)).
  cbn [fst snd]. split; [|reflexivity].
  rewrite written_rows_app.
  change (WriteRow HEADER_ROW :: ?l) with ([WriteRow HEADER_ROW] ++ l).
  rewrite !written_rows_app.
  rewrite <- (map_map (expected_row (_pcds_to_lad ix)) WriteRow), written_rows_rows.
  destruct (given (outfile a)); unfold written_rows; cbn [omap list_omap app];
    rewrite ?app_nil_r; reflexivity.
Qed.

Lemma main_lookup_raises fs a inputs e ix :
  inputs <> [] ->
  build fs (init (onspd a)) = (Raise e, ix) ->
  main_lookup fs a inputs = ([], Raise e).
Proof.
  intros Hne Hbuild. unfold main_lookup.
  destruct inputs as [|pc rest]; [congruence|]. rewrite Hbuild. reflexivity.
Qed.

(** What [main] writes and returns, given what [main_lookup] does. *)
Lemma main_of_lookup fs a inputs :
  inputs_of fs a = Some inputs ->
  written_rows (main fs a).1 = written_rows (main_lookup fs a inputs).1 /\
  (main fs a).2 = (main_lookup fs a inputs).2.
Proof.
  intros Hin. unfold inputs_of in Hin. unfold main.
  assert (Hdescr : written_rows
            (if describe a then [Print (describe_onspd_header fs (onspd a))] else []) = []).
  { destruct (describe a); reflexivity. }
  destruct (given (infile a)) as [p|].
  - destruct (fs !! p) as [f|]; [|discriminate].
    injection Hin as Hin. rewrite Hin.
    destruct (main_lookup fs a inputs) as [evs r]. cbn [fst snd].
    rewrite written_rows_app, Hdescr. split; reflexivity.
  - injection Hin as Hin. rewrite Hin.
    destruct (main_lookup fs a inputs) as [evs r]. cbn [fst snd].
    rewrite written_rows_app, Hdescr. split; reflexivity.
Qed.

(** C4, as amended.  Let the input file (if one is given) exist and the
    list of inputs (the kept lines of the input file, then the postcodes of
    the command line) be non-empty.  When the index builds from the
    reference file, [main] hands to the CSV writer exactly the header row
    followed by one row per input, in input order, each holding the
    normalized postcode, the borough name and the borough code, the last
    two empty when the postcode is not in the index, and returns 0.  When
    the build raises, [main] ends in that exception and writes no row. *)
Theorem main_writes_one_row_per_input fs a inputs :
  inputs_of fs a = Some inputs ->
  inputs <> [] ->
  match build fs (init (onspd a)) with
  | (Ok _, ix) =>
      written_rows (main fs a).1
      = HEADER_ROW :: map (expected_row (_pcds_to_lad ix)) inputs /\
      (main fs a).2 = Ok 0%Z
  | (Raise e, _) =>
      written_rows (main fs a).1 = [] /\ (main fs a).2 = Raise e
  end.
Proof.
  intros Hin Hne. destruct (main_of_lookup fs a inputs Hin) as [-> ->].
  destruct (build fs (init (onspd a))) as [[[]|e] ix] eqn:Hbuild.
  - apply main_lookup_rows; assumption.
  - rewrite (main_lookup_raises fs a inputs e ix Hne Hbuild). split; reflexivity.
Qed.

Lemma main_writes_one_row_per_input_witness :
  written_rows (main sample_fs sample_args).1
  = [["postcode"; "borough_name"; "borough_code"];
     ["E1 6AN"; "Tower Hamlets"; "E09000030"];
     ["M1 1AA"; EmptyString; EmptyString]] /\
  (main sample_fs sample_args).2 = Ok 0%Z.
Proof.
  exact (main_writes_one_row_per_input sample_fs sample_args ["e16an"; "M1 1AA"]
           eq_refl ltac:(discriminate)).
Defined.

(** C4 as stated fails when the reference file is missing: the inputs are
    not empty, [main] ends in the [FileNotFoundError] of [build], and no
    row is written, not even the header. *)
Lemma main_rows_counterexample :
  inputs_of ∅ sample_args = Some ["e16an"; "M1 1AA"] /\
  written_rows (main ∅ sample_args).1 = [] /\
  (main ∅ sample_args).2 = Raise (FileNotFoundError "ONSPD file not found: onspd.csv").
Proof. vm_compute. repeat split; reflexivity. Qed.

(** A missing input file ends [main] with status 2 and no row, also when
    postcodes were given on the command line. *)
Example main_missing_infile :
  let a := {| postcodes := ["E1 6AN"]; onspd := "onspd.csv";
              infile := Some "postcodes.txt"; outfile := None; describe := false |} in
  main sample_fs a = ([PrintErr "Input file not found: postcodes.txt"], Ok 2%Z).
Proof. vm_compute. reflexivity. Qed.

(** ** The prediction endpoint *)

Section Endpoint.

Variable np_expm1 : float -> float.

Variable round2 : float -> float.

Local Abbreviation predict := (App.predict np_expm1 round2).

Local Abbreviation predict_body := (App.predict_body np_expm1 round2).

Example sample_request_valid : App.validate sample_request = true.
Proof. vm_compute. reflexivity. Qed.

(** The handler reads the global and never assigns it. *)
Lemma predict_keeps_globals g x : (predict g x).2 = g.
Proof. unfold App.predict. destruct (predict_body g x); reflexivity. Qed.

(** C6 fails on the code: with the artifact that the training script
    dumps, whose feature list includes [imd_decile], a request that passes
    validation gets no estimate.  [HouseFeatures] has no such field, the
    attribute lookup raises, and the handler answers with status 400; this
    holds whatever the fitted model is and whatever the request holds. *)
Theorem predict_with_script_artifact_fails
  {model : Type} (behaviour : model -> list (list App.value) -> result (list float))
  (m : model) (x : App.HouseFeatures) :
  predict {| App.ART := Some (App.of_artifacts behaviour (script_artifacts m)) |} x
  = (Raise (HTTPException 400 "'HouseFeatures' object has no attribute 'imd_decile'"),
     {| App.ART := Some (App.of_artifacts behaviour (script_artifacts m)) |}).
Proof.
  unfold App.predict, App.predict_body. cbn [App.ART mbind result_bind].
  unfold App.of_artifacts, App.getitem.
  set (d := list_to_map _).
  assert (Hf : d !! "features" = Some (App.EStrList Train.FEATS)) by (vm_compute; reflexivity).
  rewrite Hf. reflexivity.
Qed.

Example imd_decile_is_a_feature : In "imd_decile" Train.FEATS.
Proof. cbn. tauto. Qed.

Example imd_decile_is_no_field : App.assoc "imd_decile" App.FIELDS = None.
Proof. reflexivity. Qed.

(** What C6 describes does hold for an artifact whose feature names are
    distinct fields of the request and whose model returns a prediction:
    the fields are taken in the order of the feature list, the model is
    asked for one row, and the estimate is [round2 (np_expm1 p)] for the
    first prediction [p]. *)
Lemma dict_set_fresh d k v :
  ~ In k (map fst d) -> App.dict_set d k v = d ++ [(k, v)].
Proof.
  induction d as [|[k' v'] d IH]; cbn [App.dict_set map fst app]; [reflexivity|].
  intros Hk. destruct (String.eqb k k') eqn:E.
  - apply String.eqb_eq in E. subst k'. exfalso. apply Hk. left. reflexivity.
  - rewrite IH; [reflexivity|]. intros Hin. apply Hk. right. exact Hin.
Qed.

Lemma comprehension_fields x names : forall row,
  NoDup names ->
  (forall k, In k names -> ~ In k (map fst row)) ->
  Forall (fun k => is_Some (App.assoc k App.FIELDS)) names ->
  exists row',
    App.comprehension x names row = Ok row' /\
    map snd row' = map snd row ++ field_values x names.
Proof.
  induction names as [|k names IH]; intros row Hnd Hfresh Hfields.
  - exists row. split; [reflexivity|]. cbn. rewrite app_nil_r. reflexivity.
  - apply NoDup_cons in Hnd as [Hk Hnd].
    apply Forall_cons in Hfields as [[field Hfield] Hfields].
    cbn [App.comprehension]. unfold App.getattr. rewrite Hfield.
    cbn [mbind result_bind].
    rewrite dict_set_fresh by (apply Hfresh; left; reflexivity).
    destruct (IH (row ++ [(k, field x)]) Hnd) as (row' & Hrow' & Hvals).
    + intros k' Hk' Hin. rewrite map_app in Hin. apply in_app_or in Hin as [Hin|Hin].
      * apply (Hfresh k'); [right; exact Hk'|exact Hin].
      * cbn in Hin. destruct Hin as [<-|[]]. apply Hk, list_elem_of_In, Hk'.
    + exact Hfields.
    + exists row'. split; [exact Hrow'|]. rewrite Hvals, map_app, <- app_assoc.
      unfold field_values. cbn [omap list_omap map snd app]. rewrite Hfield. reflexivity.
Qed.

Lemma predict_estimate d names model_predict p rest x :
  d !! "features" = Some (App.EStrList names) ->
  d !! "model" = Some (App.EModel model_predict) ->
  NoDup names ->
  Forall (fun k => is_Some (App.assoc k App.FIELDS)) names ->
  model_predict [field_values x names] = Ok (p :: rest) ->
  (predict {| App.ART := Some (App.LDict d) |} x).1
  = Ok {| App.estimated_price_gbp := round2 (np_expm1 p); App.explain := App.EXPLAIN |}.
Proof.
  intros Hf Hm Hnd Hfields Hp.
  destruct (comprehension_fields x names [] Hnd (fun _ _ H => H) Hfields)
    as (row & Hrow & Hvals).
  unfold App.predict, App.predict_body. cbn [App.ART mbind result_bind App.getitem].
  rewrite Hf. cbn [App.iterate mbind result_bind]. rewrite Hrow.
  cbn [mbind result_bind]. rewrite Hm. cbn [App.call_predict mbind result_bind].
  rewrite Hvals. cbn [map app]. rewrite Hp. reflexivity.
Qed.

(** C10.  For a request that passes validation, whatever the global [ART]
    holds (unset, not a dict, a dict without the expected entries, a model
    whose prediction raises): the handler returns the response of its body
    when the body returns, and when the body raises [e] it raises the HTTP
    exception with status 400 and detail [str(e)]; no other exception
    leaves the handler. *)
Theorem predict_raises_only_http_400 g x :
  App.validate x = true ->
  match predict_body g x with
  | Ok r => (predict g x).1 = Ok r
  | Raise e => (predict g x).1 = Raise (HTTPException 400 (App.str_of_exn e))
  end /\
  (forall e, (predict g x).1 = Raise e ->
             exists e0, predict_body g x = Raise e0 /\
                        e = HTTPException 400 (App.str_of_exn e0)).
Proof.
  intros _. unfold App.predict. destruct (predict_body g x) as [r|e0]; cbn [fst].
  - split; [reflexivity|]. intros e. discriminate.
  - split; [reflexivity|]. intros e [= <-]. exists e0. split; reflexivity.
Qed.

Example predict_artifact_not_a_dict :
  (predict {| App.ART := Some App.LOther |} sample_request).1
  = Raise (HTTPException 400 "object is not subscriptable").
Proof. reflexivity. Qed.

Example predict_artifact_without_features :
  (predict {| App.ART := Some (App.LDict ∅) |} sample_request).1
  = Raise (HTTPException 400 "'features'").
Proof. reflexivity. Qed.

(** C8.  Two runs agree.  On a built index, a second lookup of the same
    postcode, made in the state the first lookup left and against any file
    system, returns what the first returned.  With the global [ART] fixed,
    a second call of the handler with the same request, made in the state
    the first call left, returns what the first returned. *)
Theorem two_run_determinism :
  (forall fs1 fs2 ix p q,
      _built ix = true -> p = q ->
      (postcode_to_borough fs2 (postcode_to_borough fs1 ix p).2 q).1
      = (postcode_to_borough fs1 ix p).1) /\
  (forall g x y,
      x = y ->
      (predict (predict g x).2 y).1 = (predict g x).1).
Proof.
  split.
  - intros fs1 fs2 ix p q Hb <-.
    rewrite (lookup_built fs1 ix p Hb). cbn [fst snd].
    rewrite (lookup_built fs2 ix p Hb). reflexivity.
  - intros g x y <-. rewrite predict_keeps_globals. reflexivity.
Qed.

End Endpoint.

Lemma predict_raises_only_http_400_witness :
  App.validate sample_request = true /\
  (App.predict (fun x => x) (fun x => x) {| App.ART := None |} sample_request).1
  = Raise (HTTPException 400 "name 'ART' is not defined").
Proof.
  split; [vm_compute; reflexivity|].
  exact (proj1 (predict_raises_only_http_400 (fun x => x) (fun x => x)
                  {| App.ART := None |} sample_request
                  ltac:(vm_compute; reflexivity))).
Defined.

Lemma two_run_determinism_witness :
  _built sample_index = true /\
  (postcode_to_borough ∅ (postcode_to_borough sample_fs sample_index "e1 6an").2 "e1 6an").1
  = (postcode_to_borough sample_fs sample_index "e1 6an").1.
Proof.
  split; [reflexivity|].
  apply (proj1 (two_run_determinism (fun x => x) (fun x => x)));
    reflexivity.
Defined.

(** ** The training script *)

Lemma mapM_Ok {A B : Type} (f : A -> result B) l k :
  mapM f l = Ok k -> Forall2 (fun x y => f x = Ok y) l k.
Proof.
  revert k. induction l as [|x l IH]; intros k; cbn.
  - intros [= <-]. constructor.
  - destruct (f x) as [y|e] eqn:Hx; cbn; [|discriminate].
    destruct (mapM f l) as [ys|e]; cbn; [|discriminate].
    intros [= <-]. constructor; [exact Hx|]. apply IH. reflexivity.
Qed.

Lemma has_value_set_cell_ne c c' row v :
  c <> c' -> Train.has_value (Train.set_cell c row v) c' = Train.has_value row c'.
Proof.
  intros Hne. unfold Train.has_value, Train.set_cell. destruct v.
  - rewrite lookup_insert_ne by exact Hne. reflexivity.
  - rewrite lookup_delete_ne by exact Hne. reflexivity.
Qed.

Lemma lookup_set_cell_eq c row v : Train.set_cell c row v !! c = v.
Proof.
  unfold Train.set_cell. destruct v; [apply lookup_insert_eq|apply lookup_delete_eq].
Qed.

Lemma lookup_set_cell_ne c c' row v :
  c <> c' -> Train.set_cell c row v !! c' = row !! c'.
Proof.
  intros Hne. unfold Train.set_cell. destruct v.
  - apply lookup_insert_ne, Hne.
  - apply lookup_delete_ne, Hne.
Qed.

Lemma complete_set_cell labels c row v :
  ~ In c labels ->
  Train.complete labels (Train.set_cell c row v) = Train.complete labels row.
Proof.
  intros Hc. unfold Train.complete. induction labels as [|l labels IH]; [reflexivity|].
  cbn [forallb]. rewrite IH by (intros H; apply Hc; right; exact H).
  rewrite has_value_set_cell_ne; [reflexivity|]. intros ->. apply Hc. left. reflexivity.
Qed.

Lemma restrict_set_cell labels c row v :
  ~ In c labels -> restrict labels (Train.set_cell c row v) = restrict labels row.
Proof.
  intros Hc. unfold restrict, Train.set_cell.
  assert (Hnot : forall y : Train.cell, ~ contains labels (c, y).1 = true).
  { intros y H. apply Hc, contains_In, H. }
  destruct v.
  - apply (map_filter_insert_not (fun kv : string * Train.cell => contains labels kv.1 = true)).
    exact Hnot.
  - apply (map_filter_delete_not (fun kv : string * Train.cell => contains labels kv.1 = true)).
    intros y _. apply Hnot.
Qed.

Lemma has_value_restrict labels row c :
  In c labels -> Train.has_value (restrict labels row) c = Train.has_value row c.
Proof.
  intros Hc. unfold Train.has_value, restrict.
  destruct (row !! c) as [x|] eqn:Hrow.
  - assert (H : filter (fun kv : string * Train.cell => contains labels kv.1 = true) row !! c
                = Some x).
    { apply map_lookup_filter_Some. split; [exact Hrow|]. apply contains_In, Hc. }
    rewrite H. reflexivity.
  - assert (H : filter (fun kv : string * Train.cell => contains labels kv.1 = true) row !! c
                = None).
    { apply map_lookup_filter_None. left. exact Hrow. }
    rewrite H. reflexivity.
Qed.

Lemma complete_restrict labels row :
  Train.complete labels (restrict labels row) = Train.complete labels row.
Proof.
  unfold Train.complete.
  assert (H : forall cs, (forall c, In c cs -> In c labels) ->
                forallb (Train.has_value (restrict labels row)) cs
                = forallb (Train.has_value row) cs).
  { induction cs as [|c cs IH]; intros Hcs; [reflexivity|]. cbn [forallb].
    rewrite has_value_restrict by (apply Hcs; left; reflexivity).
    rewrite IH by (intros c' Hc'; apply Hcs; right; exact Hc'). reflexivity. }
  apply H. tauto.
Qed.

Lemma complete_weaken c labels row :
  Train.complete (c :: labels) row = true -> Train.complete labels row = true.
Proof. unfold Train.complete. cbn [forallb]. intros H%andb_true_iff. tauto. Qed.

(** Setting a column that is no feature, row by row. *)
Lemma zip_set_cell_restrict labels c rows : forall values,
  ~ In c labels -> length rows <= length values ->
  map (restrict labels) (zip_with (Train.set_cell c) rows values)
  = map (restrict labels) rows.
Proof.
  induction rows as [|row rows IH]; intros [|v values] Hc Hlen; cbn in *;
    try reflexivity; try lia.
  rewrite restrict_set_cell by exact Hc. rewrite IH by (exact Hc || lia). reflexivity.
Qed.

Lemma zip_set_cell_complete labels c rows : forall values,
  ~ In c labels -> complete_rows labels rows ->
  complete_rows labels (zip_with (Train.set_cell c) rows values).
Proof.
  unfold complete_rows.
  induction rows as [|row rows IH]; intros [|v values] Hc Hrows; cbn; try constructor.
  - rewrite complete_set_cell by exact Hc. apply (Forall_inv Hrows).
  - apply IH; [exact Hc|]. apply (Forall_inv_tail Hrows).
Qed.

Lemma zip_set_cell_column c rows : forall values,
  length rows = length values ->
  map (fun row : gmap string Train.cell => row !! c) (zip_with (Train.set_cell c) rows values)
  = values.
Proof.
  induction rows as [|row rows IH]; intros [|v values] Hlen; cbn in *;
    try reflexivity; try lia.
  rewrite lookup_set_cell_eq, IH by lia. reflexivity.
Qed.

Lemma zip_set_cell_other c c' rows : forall values,
  c <> c' -> length rows <= length values ->
  map (fun row : gmap string Train.cell => row !! c') (zip_with (Train.set_cell c) rows values)
  = map (fun row : gmap string Train.cell => row !! c') rows.
Proof.
  induction rows as [|row rows IH]; intros [|v values] Hne Hlen; cbn in *;
    try reflexivity; try lia.
  rewrite lookup_set_cell_ne by exact Hne. rewrite IH by (exact Hne || lia). reflexivity.
Qed.

Lemma dropna_rows subset df df1 :
  Train.dropna subset df = Ok df1 ->
  Train.columns df1 = Train.columns df /\
  Train.rows df1 = List.filter (Train.complete subset) (Train.rows df).
Proof.
  unfold Train.dropna. destruct (Train.missing_labels df subset); [|discriminate].
  intros [= <-]. split; reflexivity.
Qed.

Lemma column_values df c values :
  Train.column df c = Ok values ->
  values = map (fun row : gmap string Train.cell => row !! c) (Train.rows df).
Proof.
  unfold Train.column. destruct (contains (Train.columns df) c); [|discriminate].
  intros [= <-]. reflexivity.
Qed.

Lemma select_rows labels df d :
  Train.select labels df = Ok d -> Train.rows d = map (restrict labels) (Train.rows df).
Proof.
  unfold Train.select. destruct (Train.missing_labels df labels); [|discriminate].
  intros [= <-]. reflexivity.
Qed.

Lemma iloc_rows positions df d :
  Train.iloc positions df = Ok d ->
  Forall (fun row => In row (Train.rows df)) (Train.rows d).
Proof.
  unfold Train.iloc.
  destruct (mapM _ positions) as [rs|e] eqn:Hm; cbn [mbind result_bind]; [|discriminate].
  intros [= <-]. cbn [Train.rows]. apply mapM_Ok in Hm.
  induction Hm as [|i row positions rs Hi _ IH]; constructor; [|exact IH].
  destruct (Train.rows df !! i) as [row'|] eqn:Hrow; [|discriminate].
  injection Hi as <-. apply list_elem_of_In, list_elem_of_lookup. eauto.
Qed.

Lemma complete_rows_restrict labels rows :
  complete_rows labels rows -> complete_rows labels (map (restrict labels) rows).
Proof.
  unfold complete_rows. intros H. apply Forall_map.
  eapply Forall_impl; [exact H|]. cbn. intros row Hrow.
  rewrite complete_restrict. exact Hrow.
Qed.

Lemma make_pool_complete df positions p :
  complete_rows Train.FEATS (Train.rows df) ->
  Train.make_pool df positions = Ok p -> pool_complete p.
Proof.
  intros Hdf. unfold Train.make_pool.
  destruct (match positions with Some ps => Train.iloc ps df | None => Ok df end)
    as [d|e] eqn:Hd; cbn [mbind result_bind]; [|discriminate].
  destruct (Train.select Train.FEATS d) as [data|e] eqn:Hsel; cbn [mbind result_bind];
    [|discriminate].
  destruct (Train.column d "log_price") as [label|e]; cbn [mbind result_bind];
    [|discriminate].
  intros [= <-]. unfold pool_complete. cbn [Train.pool_data].
  rewrite (select_rows _ _ _ Hsel). apply complete_rows_restrict.
  destruct positions as [ps|]; cbn in Hd.
  - apply iloc_rows in Hd. unfold complete_rows in *.
    rewrite Forall_forall in Hdf. eapply Forall_impl; [exact Hd|].
    cbn. intros row Hrow. apply Hdf, list_elem_of_In, Hrow.
  - injection Hd as <-. exact Hdf.
Qed.

Lemma make_pool_all df p :
  Train.make_pool df None = Ok p ->
  Train.rows (Train.pool_data p) = map (restrict Train.FEATS) (Train.rows df) /\
  Train.pool_cat_features p = Train.CATS.
Proof.
  unfold Train.make_pool. cbn [mbind result_bind].
  destruct (Train.select Train.FEATS df) as [data|e] eqn:Hsel; cbn [mbind result_bind];
    [|discriminate].
  destruct (Train.column df "log_price") as [label|e]; cbn [mbind result_bind];
    [|discriminate].
  intros [= <-]. cbn [Train.pool_data Train.pool_cat_features].
  split; [apply (select_rows _ _ _ Hsel)|reflexivity].
Qed.

(** ** Runs that complete *)

Section Runs.

Context {model : Type}.

Variable lib : Train.library model.

Lemma external_ok {A B : Type} (c : Train.call model) (r : result A)
  (k : A -> Train.run model B) b :
  Train.outcome (Train.external c r ≫= k) = Ok b ->
  exists a, r = Ok a /\ Train.outcome (k a) = Ok b /\
            forall cs, Train.calls (k a) = cs ->
                       Train.calls (Train.external c r ≫= k) = c :: cs.
Proof.
  destruct r as [a|e]; cbn; [|discriminate]. intros H. exists a.
  split; [reflexivity|]. split; [exact H|]. intros cs <-. reflexivity.
Qed.

Lemma internal_ok {A B : Type} (r : result A) (k : A -> Train.run model B) b :
  Train.outcome (Train.internal r ≫= k) = Ok b ->
  exists a, r = Ok a /\ Train.outcome (k a) = Ok b /\
            forall cs, Train.calls (k a) = cs ->
                       Train.calls (Train.internal r ≫= k) = cs.
Proof.
  destruct r as [a|e]; cbn; [|discriminate]. intros H. exists a.
  split; [reflexivity|]. split; [exact H|]. intros cs <-. reflexivity.
Qed.

Lemma bind_ok {A B : Type} (r : Train.run model A) (k : A -> Train.run model B) b :
  Train.outcome (r ≫= k) = Ok b ->
  exists a, Train.outcome r = Ok a /\ Train.outcome (k a) = Ok b /\
            forall cs, Train.calls (k a) = cs ->
                       Train.calls (r ≫= k) = Train.calls r ++ cs.
Proof.
  unfold mbind, Train.run_mbind, Train.run_bind.
  destruct (Train.outcome r) as [a|e]; cbn; [|discriminate]. intros H. exists a.
  split; [reflexivity|]. split; [exact H|]. intros cs <-. reflexivity.
Qed.

Lemma cv_fold_ok df acc fold acc' :
  Train.outcome (Train.cv_fold lib df acc fold) = Ok acc' ->
  exists s,
    fold_step lib df fold s /\
    Train.calls (Train.cv_fold lib df acc fold) = step_calls s /\
    acc' = (acc.1 ++ map (Train.np_expm1 model lib) (step_predicted s),
            acc.2 ++ step_actual s).
Proof.
  unfold Train.cv_fold. intros H.
  apply internal_ok in H as (tp & Htp & H & C1).
  apply internal_ok in H as (vp & Hvp & H & C2).
  apply external_ok in H as (m & Hm & H & C3).
  apply external_ok in H as (p & Hp & H & C4).
  apply internal_ok in H as (va & Hva & H & C5).
  apply internal_ok in H as (y & Hy & H & C6).
  cbn in H. injection H as <-.
  exists {| step_train := tp; step_valid := vp; step_model := m;
            step_predicted := p; step_actual := y |}.
  split; [|split; [|reflexivity]].
  - unfold fold_step.
    cbn [step_train step_valid step_model step_predicted step_actual].
    rewrite Hva. cbn [mbind result_bind]. tauto.
  - apply C1, C2. unfold step_calls.
    cbn [step_train step_valid step_model step_predicted step_actual].
    apply C3, C4, C5, C6. reflexivity.
Qed.

Lemma cv_loop_ok df folds : forall acc acc',
  Train.outcome (Train.cv_loop lib df folds acc) = Ok acc' ->
  exists steps,
    Forall2 (fold_step lib df) folds steps /\
    Train.calls (Train.cv_loop lib df folds acc) = flat_map step_calls steps /\
    acc' = (acc.1 ++ out_of_fold lib steps, acc.2 ++ actual_prices steps).
Proof.
  induction folds as [|fold folds IH]; intros acc acc' H.
  - cbn in H. injection H as <-. exists []. cbn. rewrite !app_nil_r.
    split; [constructor|]. split; [reflexivity|]. destruct acc; reflexivity.
  - cbn [Train.cv_loop] in *.
    apply bind_ok in H as (acc1 & H1 & H & C).
    apply cv_fold_ok in H1 as (s & Hs & Hcalls & ->).
    apply IH in H as (steps & Hsteps & Hrest & ->).
    exists (s :: steps). split; [constructor; assumption|].
    split.
    + rewrite (C _ Hrest), Hcalls. reflexivity.
    + cbn. rewrite <- !app_assoc. reflexivity.
Qed.

End Runs.

Lemma log_price_no_feature : ~ In "log_price" Train.FEATS.
Proof. cbn. intros H. repeat destruct H as [H|H]; try discriminate H. exact H. Qed.

Lemma year_group_no_feature : ~ In "year_group" Train.FEATS.
Proof. cbn. intros H. repeat destruct H as [H|H]; try discriminate H. exact H. Qed.

(** Two-year buckets: an integer year falls in the bucket that starts at
    the even year at or just below it. *)
Lemma year_group_bucket floor_divide (y : Z) :
  Train.year_group floor_divide (Train.CInt y) = Ok (Train.CInt (y / 2 * 2)) /\
  (y / 2 * 2 <= y < y / 2 * 2 + 2)%Z /\ ((y / 2 * 2) mod 2 = 0)%Z.
Proof.
  split; [reflexivity|]. split.
  - pose proof (Z.div_mod y 2). pose proof (Z.mod_pos_bound y 2). lia.
  - apply Z.mod_mul. lia.
Qed.

(** C5.  A run of the training script that completes makes its outside
    calls in this order: it creates the model directory and reads the
    prepared dataset; it drops every row with a missing target or feature
    value, so that every pool it builds afterwards has no missing feature
    value; it asks for a 5-fold grouped split, the group of a row being the
    two-year bucket of its [sale_year]; for each fold it fits on the
    training pool with the validation pool as evaluation set and predicts
    the validation pool; it computes the error of the collected
    out-of-fold predictions against the collected prices and prints it; it
    fits one final model on all the rows that were kept; and last it dumps
    the dict of model, features, categorical features, numeric features and
    target to [model/house_price_catboost.joblib]. *)
Theorem training_script_is_a_linear_pipeline {model : Type} (lib : Train.library model) :
  Train.outcome (Train.script lib) = Ok tt ->
  exists df0 df groups folds (steps : list cv_step) mae final_pool final_model,
    Train.read_parquet model lib Train.DATA = Ok df0 /\
    map (restrict Train.FEATS) (Train.rows df) = map (restrict Train.FEATS) (kept_rows df0) /\
    mapM (Train.elementwise (Train.year_group (Train.np_floor_divide model lib)))
         (map (fun row : gmap string Train.cell => row !! "sale_year") (kept_rows df0))
    = Ok groups /\
    (forall y : Z,
        Train.year_group (Train.np_floor_divide model lib) (Train.CInt y)
        = Ok (Train.CInt (y / 2 * 2)) /\
        (y / 2 * 2 <= y < y / 2 * 2 + 2)%Z /\ ((y / 2 * 2) mod 2 = 0)%Z) /\
    Train.group_kfold_split model lib 5 df groups = Ok folds /\
    Forall2 (fold_step lib df) folds steps /\
    Forall (fun s => pool_complete (step_train s) /\ pool_complete (step_valid s)) steps /\
    Train.mean_absolute_error model lib (actual_prices steps) (out_of_fold lib steps)
    = Ok mae /\
    Train.rows (Train.pool_data final_pool) = map (restrict Train.FEATS) (kept_rows df0) /\
    pool_complete final_pool /\
    Train.catboost_fit model lib Train.final_params final_pool None None = Ok final_model /\
    Train.calls (Train.script lib) =
      [Train.CallMkdir model "model";
       Train.CallReadParquet model "data/london_ppd_prepared.parquet";
       Train.CallSplit model 5 groups]
      ++ flat_map step_calls steps
      ++ [Train.CallMAE model (actual_prices steps) (out_of_fold lib steps);
          Train.CallPrint model ("OOF MAE: £" +:+ Train.format_mae model lib mae);
          Train.CallFit model Train.final_params final_pool None None;
          Train.CallDump model (script_artifacts final_model)
                         "model/house_price_catboost.joblib";
          Train.CallPrint model "Saved model → model/house_price_catboost.joblib"].
Proof.
  intros H. unfold Train.script in H.
  apply external_ok in H as ([] & Hmk & H & C1).
  apply external_ok in H as (df0 & Hread & H & C2).
  apply internal_ok in H as (df1 & Hdrop & H & C3).
  apply internal_ok in H as (price & Hprice & H & C4).
  apply internal_ok in H as (log_price & Hlog & H & C5).
  cbv zeta in H, C5.
  set (df2 := Train.with_column "log_price" log_price df1) in *.
  apply internal_ok in H as (years & Hyears & H & C6).
  apply internal_ok in H as (buckets & Hbuckets & H & C7).
  cbv zeta in H, C7.
  set (df := Train.with_column "year_group" buckets df2) in *.
  apply internal_ok in H as (groups & Hgroups & H & C8).
  apply external_ok in H as (folds & Hsplit & H & C9).
  apply bind_ok in H as (acc & Hcv & H & C10).
  apply external_ok in H as (mae & Hmae & H & C11).
  apply external_ok in H as ([] & _ & H & C12).
  apply internal_ok in H as (final_pool & Hfinal & H & C13).
  apply external_ok in H as (final_model & Hfit & H & C14).
  cbv zeta in H, C14.
  apply external_ok in H as ([] & Hdump & H & C15).
  apply cv_loop_ok in Hcv as (steps & Hsteps & Hcvcalls & ->).
  cbn [fst snd app] in *.
  (* the rows that were kept, and the two columns added to them *)
  apply dropna_rows in Hdrop as [Hcols1 Hrows1]. fold (kept_rows df0) in Hrows1.
  apply column_values in Hprice. rewrite Hrows1 in Hprice.
  apply mapM_Ok in Hlog as Hlog2. apply Forall2_length in Hlog2.
  rewrite Hprice, length_map in Hlog2.
  assert (Hrows2 : Train.rows df2 = zip_with (Train.set_cell "log_price") (kept_rows df0) log_price).
  { unfold df2, Train.with_column. cbn [Train.rows]. rewrite Hrows1. reflexivity. }
  apply column_values in Hyears.
  rewrite Hrows2, zip_set_cell_other in Hyears by (discriminate || lia).
  apply mapM_Ok in Hbuckets as Hb2. apply Forall2_length in Hb2.
  rewrite Hyears, length_map in Hb2.
  assert (Hrows : Train.rows df
                  = zip_with (Train.set_cell "year_group") (Train.rows df2) buckets).
  { reflexivity. }
  assert (Hlen2 : length (Train.rows df2) = length (kept_rows df0)).
  { rewrite Hrows2, length_zip_with. lia. }
  apply column_values in Hgroups.
  rewrite Hrows, zip_set_cell_column in Hgroups by lia. subst groups.
  assert (Hfeat : map (restrict Train.FEATS) (Train.rows df)
                  = map (restrict Train.FEATS) (kept_rows df0)).
  { rewrite Hrows, zip_set_cell_restrict by (apply year_group_no_feature || lia).
    rewrite Hrows2. apply zip_set_cell_restrict; [apply log_price_no_feature|lia]. }
  assert (Hcomplete : complete_rows Train.FEATS (Train.rows df)).
  { rewrite Hrows. apply zip_set_cell_complete; [apply year_group_no_feature|].
    rewrite Hrows2. apply zip_set_cell_complete; [apply log_price_no_feature|].
    unfold complete_rows, kept_rows. apply Forall_forall. intros row Hrow.
    apply list_elem_of_In, filter_In in Hrow as [_ Hrow].
    eapply complete_weaken, Hrow. }
  exists df0, df, buckets, folds, steps, mae, final_pool, final_model.
  split; [exact Hread|]. split; [exact Hfeat|].
  split; [rewrite <- Hyears; exact Hbuckets|].
  split; [intros y; apply year_group_bucket|].
  split; [exact Hsplit|]. split; [exact Hsteps|].
  split.
  { clear - Hsteps Hcomplete. induction Hsteps as [|fold s folds steps Hs _ IH]; constructor.
    - destruct Hs as (Htp & Hvp & _).
      split; eapply make_pool_complete; eassumption.
    - exact IH. }
  split; [exact Hmae|].
  split; [rewrite <- Hfeat; apply (make_pool_all _ _ Hfinal)|].
  split; [eapply make_pool_complete; eassumption|].
  split; [exact Hfit|].
  unfold Train.script. apply C1, C2, C3, C4, C5, C6, C7, C8, C9.
  rewrite (C10 _ eq_refl) at 1. rewrite Hcvcalls. f_equal.
  apply C11, C12, C13, C14, C15. reflexivity.
Qed.

Lemma training_script_is_a_linear_pipeline_witness :
  exists df0 df groups folds (steps : list cv_step) mae final_pool final_model,
    Train.read_parquet unit sample_library Train.DATA = Ok df0 /\
    map (restrict Train.FEATS) (Train.rows df) = map (restrict Train.FEATS) (kept_rows df0) /\
    mapM (Train.elementwise (Train.year_group (Train.np_floor_divide unit sample_library)))
         (map (fun row : gmap string Train.cell => row !! "sale_year") (kept_rows df0))
    = Ok groups /\
    (forall y : Z,
        Train.year_group (Train.np_floor_divide unit sample_library) (Train.CInt y)
        = Ok (Train.CInt (y / 2 * 2)) /\
        (y / 2 * 2 <= y < y / 2 * 2 + 2)%Z /\ ((y / 2 * 2) mod 2 = 0)%Z) /\
    Train.group_kfold_split unit sample_library 5 df groups = Ok folds /\
    Forall2 (fold_step sample_library df) folds steps /\
    Forall (fun s => pool_complete (step_train s) /\ pool_complete (step_valid s)) steps /\
    Train.mean_absolute_error unit sample_library (actual_prices steps)
                              (out_of_fold sample_library steps)
    = Ok mae /\
    Train.rows (Train.pool_data final_pool) = map (restrict Train.FEATS) (kept_rows df0) /\
    pool_complete final_pool /\
    Train.catboost_fit unit sample_library Train.final_params final_pool None None
    = Ok final_model /\
    Train.calls (Train.script sample_library) =
      [Train.CallMkdir unit "model";
       Train.CallReadParquet unit "data/london_ppd_prepared.parquet";
       Train.CallSplit unit 5 groups]
      ++ flat_map step_calls steps
      ++ [Train.CallMAE unit (actual_prices steps) (out_of_fold sample_library steps);
          Train.CallPrint unit ("OOF MAE: £" +:+ Train.format_mae unit sample_library mae);
          Train.CallFit unit Train.final_params final_pool None None;
          Train.CallDump unit (script_artifacts final_model)
                         "model/house_price_catboost.joblib";
          Train.CallPrint unit "Saved model → model/house_price_catboost.joblib"].
Proof.
  apply (training_script_is_a_linear_pipeline sample_library).
  vm_compute. reflexivity.
Defined.

Example sample_run_drops_the_incomplete_row :
  length (Train.rows sample_frame) = 3 /\ length (kept_rows sample_frame) = 2.
Proof. vm_compute. split; reflexivity. Qed.

(** * Further properties of the code *)

(** ** The normal form of a postcode *)

Lemma normalize_l_trimmed pc :
  trimmed isspace (normalize_l pc) /\ upper_fixed (normalize_l pc).
Proof.
  assert (Hu : trimmed isspace (upper_l (strip_l pc))) by apply trimmed_upper, strip_trimmed.
  assert (Hf : upper_fixed (upper_l (strip_l pc))) by apply upper_l_is_fixed.
  unfold normalize_l.
  destruct (length (remove_blanks_l (upper_l (strip_l pc))) <? 5) eqn:Hlen; [tauto|].
  apply Nat.ltb_ge in Hlen. split.
  - apply trimmed_spaced; [lia|lia|]. apply trimmed_remove_blanks, Hu.
  - apply upper_fixed_spaced, remove_blanks_upper_fixed, Hf.
Qed.

Lemma string_of_list_ascii_app a b :
  string_of_list_ascii (a ++ b) = string_of_list_ascii a +:+ string_of_list_ascii b.
Proof. induction a as [|c a IH]; cbn; [reflexivity|]. rewrite IH. reflexivity. Qed.

Lemma string_of_list_length l : String.length (string_of_list_ascii l) = length l.
Proof. induction l as [|c l IH]; cbn; [reflexivity|]. rewrite IH. reflexivity. Qed.

(** The stripped, upper-cased, space-free form of a string, as a list. *)
Lemma compact_list p :
  string_of_list_ascii (remove_blanks_l (upper_l (strip_l (list_ascii_of_string p))))
  = remove_blanks (upper (strip p)).
Proof.
  unfold remove_blanks, upper, strip. rewrite !lift_compose. reflexivity.
Qed.

(** X1.  The result of [normalize_postcode] is in canonical form: stripping
    it, upper-casing it or normalizing it again changes nothing. *)
Theorem normalize_postcode_canonical p :
  strip (normalize_postcode p) = normalize_postcode p /\
  upper (normalize_postcode p) = normalize_postcode p /\
  normalize_postcode (normalize_postcode p) = normalize_postcode p.
Proof.
  destruct (normalize_l_trimmed (list_ascii_of_string p)) as [Ht Hf].
  split; [|split].
  - unfold strip, normalize_postcode. rewrite lift_compose. unfold lift, strip_l.
    rewrite (strip_id _ _ Ht). reflexivity.
  - unfold upper, normalize_postcode. rewrite lift_compose. unfold lift.
    rewrite (upper_l_fixed _ Hf). reflexivity.
  - apply normalize_postcode_idempotent.
Qed.

(** X2.  The layout of the normal form.  Let [s] be the input stripped,
    upper-cased and with every space removed.  When [s] has at least five
    characters, the normal form is [s] with one space put before its last
    three characters: it is the only space of the result, and two inputs
    with the same [s] have the same normal form. *)
Theorem normalize_postcode_layout p :
  5 <= String.length (remove_blanks (upper (strip p))) ->
  (exists a b,
      remove_blanks (upper (strip p)) = a +:+ b /\
      String.length b = 3 /\
      normalize_postcode p = a +:+ " " +:+ b /\
      remove_blanks a = a /\ remove_blanks b = b) /\
  String.length (normalize_postcode p)
  = S (String.length (remove_blanks (upper (strip p)))) /\
  remove_blanks (normalize_postcode p) = remove_blanks (upper (strip p)) /\
  (forall q, remove_blanks (upper (strip q)) = remove_blanks (upper (strip p)) ->
             normalize_postcode q = normalize_postcode p).
Proof.
  intros Hlen.
  pose proof (compact_list p) as Hs.
  set (s := remove_blanks_l (upper_l (strip_l (list_ascii_of_string p)))) in *.
  assert (Hn : length s = String.length (remove_blanks (upper (strip p)))).
  { rewrite <- Hs, string_of_list_length. reflexivity. }
  rewrite <- Hn in *.
  assert (Hfree : blank_free s) by apply remove_blanks_free.
  assert (Hnorm : normalize_postcode p
                  = string_of_list_ascii (firstn (length s - 3) s)
                    +:+ " " +:+ string_of_list_ascii (skipn (length s - 3) s)).
  { unfold normalize_postcode, lift, normalize_l. fold s.
    apply Nat.ltb_ge in Hlen. rewrite Hlen.
    rewrite string_of_list_ascii_app. reflexivity. }
  split; [|split; [|split]].
  - exists (string_of_list_ascii (firstn (length s - 3) s)),
           (string_of_list_ascii (skipn (length s - 3) s)).
    split; [|split; [|split; [|split]]].
    + rewrite <- string_of_list_ascii_app, firstn_skipn. symmetry. exact Hs.
    + rewrite string_of_list_length, length_skipn. lia.
    + exact Hnorm.
    + unfold remove_blanks, lift. rewrite list_ascii_of_string_of_list_ascii.
      rewrite remove_blanks_fixed; [reflexivity|]. apply Forall_take, Hfree.
    + unfold remove_blanks, lift. rewrite list_ascii_of_string_of_list_ascii.
      rewrite remove_blanks_fixed; [reflexivity|]. apply Forall_drop, Hfree.
  - unfold normalize_postcode, lift, normalize_l. fold s.
    apply Nat.ltb_ge in Hlen. rewrite Hlen. apply Nat.ltb_ge in Hlen.
    rewrite string_of_list_length, length_app. cbn [length].
    rewrite length_firstn, length_skipn. lia.
  - rewrite <- Hs. unfold normalize_postcode, remove_blanks at 1, lift.
    rewrite list_ascii_of_string_of_list_ascii. unfold normalize_l. fold s.
    apply Nat.ltb_ge in Hlen. rewrite Hlen.
    rewrite (remove_blanks_spaced s _ Hfree). reflexivity.
  - intros q Hq. pose proof (compact_list q) as Hsq.
    rewrite Hq, <- Hs in Hsq.
    apply (f_equal list_ascii_of_string) in Hsq.
    rewrite !list_ascii_of_string_of_list_ascii in Hsq.
    unfold normalize_postcode, lift, normalize_l. rewrite Hsq. fold s.
    apply Nat.ltb_ge in Hlen. rewrite Hlen. reflexivity.
Qed.

Lemma normalize_postcode_layout_witness :
  5 <= String.length (remove_blanks (upper (strip " sw1a 1aa "))) /\
  String.length (normalize_postcode " sw1a 1aa ") = 8 /\
  normalize_postcode "SW1A1AA" = normalize_postcode " sw1a 1aa ".
Proof.
  pose proof (normalize_postcode_layout " sw1a 1aa " ltac:(vm_compute; lia))
    as (_ & Hlen & _ & Hsame).
  split; [vm_compute; lia|]. split; [exact Hlen|]. apply Hsame. reflexivity.
Defined.

(** ** The mapping as a function of the file *)

(** The loop body, split into what it returns and what it stores. *)
Lemma index_row_entry row m :
  (index_row row m).2
  = match row_entry row with
    | Some kv => <[kv.1 := kv.2]> m
    | None => m
    end.
Proof.
  unfold index_row, row_entry, strip_value, clean.
  destruct (dict_get row "lad25cd" EmptyString) as [lad0|]; [|reflexivity].
  destruct (LONDON_LAD_CODE_TO_NAME !! strip_quotes (strip lad0)); [|reflexivity].
  destruct (dict_get row "pcds" EmptyString) as [pcds0|]; [|reflexivity].
  destruct (truthy (strip_quotes (strip pcds0))); reflexivity.
Qed.

Lemma index_row_outcome row m m0 : (index_row row m).1 = (index_row row m0).1.
Proof.
  unfold index_row.
  destruct (strip_value (dict_get row "lad25cd" EmptyString)) as [lad0|]; [|reflexivity].
  destruct (LONDON_LAD_CODE_TO_NAME !! strip_quotes lad0); [|reflexivity].
  destruct (strip_value (dict_get row "pcds" EmptyString)) as [pcds0|]; [|reflexivity].
  destruct (truthy (strip_quotes pcds0)); reflexivity.
Qed.

Lemma scan_ok_entries rows : forall m m',
  scan rows m = (Ok tt, m') -> m' = fold_left store (omap row_entry rows) m.
Proof.
  induction rows as [|row rows IH]; intros m m'; cbn [scan omap list_omap fold_left].
  - intros [= <-]. reflexivity.
  - pose proof (index_row_entry row m) as He.
    destruct (index_row row m) as [[[]|e] m1]; [|discriminate].
    cbn [snd] in He. subst m1. intros Hs. apply IH in Hs. subst m'.
    destruct (row_entry row) as [kv|]; reflexivity.
Qed.

(** The last write to a key wins. *)
Lemma fold_store_lookup l : forall m k v,
  fold_left store l m !! k = Some v <->
  (exists l1 l2, l = l1 ++ (k, v) :: l2 /\ ~ In k (map fst l2)) \/
  (~ In k (map fst l) /\ m !! k = Some v).
Proof.
  induction l as [|[k0 v0] l IH]; intros m k v; cbn [fold_left map fst].
  - split.
    + intros H. right. split; [intros []|exact H].
    + intros [(l1 & l2 & H & _)|[_ H]]; [|exact H]. destruct l1; discriminate.
  - rewrite IH. unfold store at 1. cbn [fst snd]. split.
    + intros [(l1 & l2 & -> & Hl2)|[Hl Hm]].
      * left. exists ((k0, v0) :: l1), l2. split; [reflexivity|exact Hl2].
      * destruct (decide (k0 = k)) as [->|Hne].
        -- rewrite lookup_insert_eq in Hm. injection Hm as ->.
           left. exists [], l. split; [reflexivity|exact Hl].
        -- rewrite lookup_insert_ne in Hm by exact Hne.
           right. split; [|exact Hm]. intros [H|H]; [congruence|exact (Hl H)].
    + intros [(l1 & l2 & Heq & Hl2)|[Hl Hm]].
      * destruct l1 as [|kv l1]; cbn in Heq.
        -- injection Heq as H1 H2 H3. subst k0 v0 l2. right. split; [exact Hl2|].
           apply lookup_insert_eq.
        -- injection Heq as H1 H2. subst kv l. left. exists l1, l2.
           split; [reflexivity|exact Hl2].
      * right. split; [intros H; apply Hl; right; exact H|].
        rewrite lookup_insert_ne; [exact Hm|].
        intros ->. apply Hl. left. reflexivity.
Qed.

Lemma omap_split {A B : Type} (f : A -> option B) rows : forall l1 x l2,
  omap f rows = l1 ++ x :: l2 ->
  exists rows1 row rows2,
    rows = rows1 ++ row :: rows2 /\ f row = Some x /\
    omap f rows1 = l1 /\ omap f rows2 = l2.
Proof.
  induction rows as [|r rows IH]; intros l1 x l2; cbn [omap list_omap].
  - intros H. destruct l1; discriminate.
  - destruct (f r) as [y|] eqn:Hr.
    + destruct l1 as [|z l1]; cbn [app].
      * intros [= -> <-]. exists [], r, rows. cbn. rewrite Hr. tauto.
      * intros [= -> H]. apply IH in H as (rows1 & row & rows2 & -> & Hrow & <- & <-).
        exists (r :: rows1), row, rows2. cbn [omap list_omap app]. rewrite Hr. tauto.
    + intros H. apply IH in H as (rows1 & row & rows2 & -> & Hrow & <- & <-).
      exists (r :: rows1), row, rows2. cbn [omap list_omap app]. rewrite Hr. tauto.
Qed.

Lemma not_overridden_keys k rows :
  not_overridden k rows <-> ~ In k (map fst (omap row_entry rows)).
Proof.
  unfold not_overridden. induction rows as [|row rows IH]; cbn [omap list_omap map].
  - split; [intros _ []|constructor].
  - rewrite Forall_cons, IH. destruct (row_entry row) as [[k0 v0]|]; cbn [map fst].
    + split.
      * intros [Hrow Hrest] [->|H]; [apply (Hrow v0); reflexivity|exact (Hrest H)].
      * intros H. split.
        -- intros lad [= -> _]. apply H. left. reflexivity.
        -- intros H'. apply H. right. exact H'.
    + split; [intros [_ H]; exact H|]. intros H. split; [discriminate|exact H].
Qed.

Lemma build_ok_mapping fs path ix :
  build fs (init path) = (Ok tt, ix) ->
  exists f, fs !! path = Some f /\
            _pcds_to_lad ix = fold_left store (omap row_entry (data_rows f)) ∅.
Proof.
  unfold build. cbn [_built init onspd_csv_path _pcds_to_lad].
  destruct (fs !! path) as [f|]; [|discriminate].
  destruct (fieldnames (csv_records f)) as [names|] eqn:Hn; [|discriminate].
  destruct (missing_columns names); [|discriminate].
  destruct (scan _ _) as [[[]|e] m] eqn:Hs; [|discriminate].
  intros [= <-]. exists f. split; [reflexivity|].
  apply scan_ok_entries in Hs. unfold data_rows. rewrite Hn. exact Hs.
Qed.

(** X3.  After [build] has completed on an index that was just created,
    the mapping sends [k] to [lad] exactly when some data row of the file
    stores [lad] under [k] (its code is on the allow-list and its postcode
    is not empty) and no later row stores anything under [k]: of several
    rows with one postcode, the last one counts. *)
Theorem index_holds_last_london_row fs path ix :
  build fs (init path) = (Ok tt, ix) ->
  exists f,
    fs !! path = Some f /\
    forall k lad,
      _pcds_to_lad ix !! k = Some lad <->
      exists rows1 row rows2,
        data_rows f = rows1 ++ row :: rows2 /\
        row_entry row = Some (k, lad) /\
        not_overridden k rows2.
Proof.
  intros Hb. apply build_ok_mapping in Hb as (f & Hf & Hm).
  exists f. split; [exact Hf|]. intros k lad. rewrite Hm, fold_store_lookup. split.
  - intros [(l1 & l2 & Hl & Hk)|[_ H]]; [|rewrite lookup_empty in H; discriminate].
    apply omap_split in Hl as (rows1 & row & rows2 & Hrows & Hrow & _ & <-).
    exists rows1, row, rows2. split; [exact Hrows|]. split; [exact Hrow|].
    apply not_overridden_keys, Hk.
  - intros (rows1 & row & rows2 & Hrows & Hrow & Hk). left.
    exists (omap row_entry rows1), (omap row_entry rows2). split.
    + rewrite Hrows, omap_app. cbn [omap list_omap]. rewrite Hrow. reflexivity.
    + apply not_overridden_keys, Hk.
Qed.

Lemma index_holds_last_london_row_witness :
  exists f,
    sample_fs !! "onspd.csv" = Some f /\
    forall k lad,
      _pcds_to_lad sample_index !! k = Some lad <->
      exists rows1 row rows2,
        data_rows f = rows1 ++ row :: rows2 /\
        row_entry row = Some (k, lad) /\
        not_overridden k rows2.
Proof.
  apply (index_holds_last_london_row sample_fs "onspd.csv" sample_index).
  vm_compute. reflexivity.
Defined.

Lemma row_entry_london row k lad :
  row_entry row = Some (k, lad) ->
  exists name, LONDON_LAD_CODE_TO_NAME !! lad = Some name /\ truthy lad = true.
Proof.
  unfold row_entry.
  destruct (dict_get row "lad25cd" EmptyString) as [lad0|]; [|discriminate].
  destruct (LONDON_LAD_CODE_TO_NAME !! clean lad0) as [name|] eqn:Hlad; [|discriminate].
  destruct (dict_get row "pcds" EmptyString) as [pcds0|]; [|discriminate].
  destruct (truthy (clean pcds0)); [|discriminate].
  intros [= _ <-]. exists name. split; [exact Hlad|].
  destruct (clean lad0) eqn:E; [|reflexivity].
  rewrite london_no_empty_code in Hlad. discriminate.
Qed.

(** X4.  Lookups follow the file.  On the index built from a file, a
    lookup of [p] returns the borough name and code of the last data row
    that stores something under the normal form of [p], and [(None, None)]
    when no data row does; postcodes of rows whose code is outside the
    allow-list are never found. *)
Theorem lookup_follows_the_file fs path ix :
  build fs (init path) = (Ok tt, ix) ->
  exists f,
    fs !! path = Some f /\
    forall fs' p,
      (forall rows1 row rows2 lad,
          data_rows f = rows1 ++ row :: rows2 ->
          row_entry row = Some (normalize_postcode p, lad) ->
          not_overridden (normalize_postcode p) rows2 ->
          exists name,
            LONDON_LAD_CODE_TO_NAME !! lad = Some name /\
            postcode_to_borough fs' ix p = (Ok (Some name, Some lad), ix)) /\
      (not_overridden (normalize_postcode p) (data_rows f) ->
       postcode_to_borough fs' ix p = (Ok (None, None), ix)).
Proof.
  intros Hb. pose proof (build_ok_built _ _ _ Hb) as Hbuilt.
  apply build_ok_mapping in Hb as (f & Hf & Hm).
  exists f. split; [exact Hf|]. intros fs' p. split.
  - intros rows1 row rows2 lad Hrows Hrow Hlast.
    destruct (row_entry_london _ _ _ Hrow) as (name & Hname & Ht).
    exists name. split; [exact Hname|].
    rewrite (lookup_built fs' ix p Hbuilt).
    assert (Hk : _pcds_to_lad ix !! normalize_postcode p = Some lad).
    { rewrite Hm. apply fold_store_lookup. left.
      exists (omap row_entry rows1), (omap row_entry rows2). split.
      - rewrite Hrows, omap_app. cbn [omap list_omap]. rewrite Hrow. reflexivity.
      - apply not_overridden_keys, Hlast. }
    rewrite Hk, Ht, Hname. reflexivity.
  - intros Hnone. rewrite (lookup_built fs' ix p Hbuilt).
    destruct (_pcds_to_lad ix !! normalize_postcode p) as [lad|] eqn:Hk; [|reflexivity].
    exfalso. rewrite Hm in Hk. apply fold_store_lookup in Hk as [(l1 & l2 & Hl & _)|[_ Hk]].
    + apply not_overridden_keys in Hnone. apply Hnone. rewrite Hl, map_app.
      apply in_or_app. right. left. reflexivity.
    + rewrite lookup_empty in Hk. discriminate.
Qed.

Lemma lookup_follows_the_file_witness :
  exists f,
    sample_fs !! "onspd.csv" = Some f /\
    forall fs' p,
      (forall rows1 row rows2 lad,
          data_rows f = rows1 ++ row :: rows2 ->
          row_entry row = Some (normalize_postcode p, lad) ->
          not_overridden (normalize_postcode p) rows2 ->
          exists name,
            LONDON_LAD_CODE_TO_NAME !! lad = Some name /\
            postcode_to_borough fs' sample_index p = (Ok (Some name, Some lad), sample_index)) /\
      (not_overridden (normalize_postcode p) (data_rows f) ->
       postcode_to_borough fs' sample_index p = (Ok (None, None), sample_index)).
Proof.
  apply (lookup_follows_the_file sample_fs "onspd.csv" sample_index).
  vm_compute. reflexivity.
Defined.

(** ** Repeating a build *)

(** Whether a row makes the loop raise, and what it stores, do not depend
    on the mapping built so far. *)
Lemma index_row_cases row :
  (forall m, index_row row m
             = (Ok tt, match row_entry row with Some kv => store m kv | None => m end)) \/
  (exists e, forall m, index_row row m = (Raise e, m)).
Proof.
  unfold index_row, row_entry, strip_value, clean, store.
  destruct (dict_get row "lad25cd" EmptyString) as [lad0|]; [|right; eauto].
  destruct (LONDON_LAD_CODE_TO_NAME !! strip_quotes (strip lad0)); [|left; reflexivity].
  destruct (dict_get row "pcds" EmptyString) as [pcds0|]; [|right; eauto].
  destruct (truthy (strip_quotes (strip pcds0))); left; reflexivity.
Qed.

Lemma scan_factor rows :
  exists r l, forall m, scan rows m = (r, fold_left store l m).
Proof.
  induction rows as [|row rows (r & l & IH)].
  - exists (Ok tt), []. reflexivity.
  - destruct (index_row_cases row) as [Hok|[e He]].
    + destruct (row_entry row) as [kv|].
      * exists r, (kv :: l). intros m. cbn [scan fold_left]. rewrite Hok. apply IH.
      * exists r, l. intros m. cbn [scan]. rewrite Hok. apply IH.
    + exists (Raise e), []. intros m. cbn [scan]. rewrite He. reflexivity.
Qed.

Lemma fold_store_twice l m :
  fold_left store l (fold_left store l m) = fold_left store l m.
Proof.
  apply map_eq. intros k. apply option_eq. intros v.
  rewrite (fold_store_lookup l (fold_left store l m)), (fold_store_lookup l m).
  split.
  - intros [H|[Hk [H|H]]]; [left; exact H|left; exact H|right; exact H].
  - intros [H|[Hk H]]; [left; exact H|]. right. split; [exact Hk|]. right. tauto.
Qed.

Lemma fold_store_keeps l : forall m k,
  is_Some (m !! k) -> is_Some (fold_left store l m !! k).
Proof.
  induction l as [|[k0 v0] l IH]; intros m k Hk; cbn [fold_left]; [exact Hk|].
  apply IH. unfold store. cbn [fst snd]. destruct (decide (k0 = k)) as [->|Hne].
  - rewrite lookup_insert_eq. eauto.
  - rewrite lookup_insert_ne by exact Hne. exact Hk.
Qed.

(** X5.  Building again changes nothing: a second [build] against the same
    file system returns what the first returned (in particular, a build
    that failed fails again with the same exception) and leaves the index
    in the state the first left it in. *)
Theorem build_again_is_stable fs ix :
  build fs (build fs ix).2 = build fs ix.
Proof.
  unfold build at 2 3.
  destruct (_built ix) eqn:Hb.
  { cbn [snd]. unfold build. rewrite Hb. reflexivity. }
  destruct (fs !! onspd_csv_path ix) as [f|] eqn:Hf.
  2: { cbn [snd]. unfold build. rewrite Hb, Hf. reflexivity. }
  destruct (fieldnames (csv_records f)) as [names|] eqn:Hn.
  2: { cbn [snd]. unfold build. rewrite Hb, Hf, Hn. reflexivity. }
  destruct (missing_columns names) as [|c rest] eqn:Hmiss.
  2: { cbn [snd]. unfold build. rewrite Hb, Hf, Hn, Hmiss. reflexivity. }
  destruct (scan_factor (dict_rows names (tail (csv_records f)))) as (r & l & Hscan).
  rewrite Hscan. destruct r as [[]|e]; cbn [snd].
  - reflexivity.
  - unfold build. cbn [_built with_mapping onspd_csv_path _pcds_to_lad].
    rewrite Hf, Hn, Hmiss, Hscan, fold_store_twice. reflexivity.
Qed.

(** X6.  What [build] keeps: the configured path is never changed, no key
    of the mapping is ever removed, and the built flag is set afterwards
    exactly when the call returned normally. *)
Theorem build_keeps_path_and_keys fs ix :
  onspd_csv_path (build fs ix).2 = onspd_csv_path ix /\
  (forall k, is_Some (_pcds_to_lad ix !! k) -> is_Some (_pcds_to_lad (build fs ix).2 !! k)) /\
  (_built (build fs ix).2 = true <-> (build fs ix).1 = Ok tt).
Proof.
  unfold build. destruct (_built ix) eqn:Hb; [cbn; tauto|].
  destruct (fs !! onspd_csv_path ix) as [f|].
  2: { cbn [fst snd]. rewrite Hb. split; [reflexivity|]. split; [tauto|]. split; discriminate. }
  destruct (fieldnames (csv_records f)) as [names|].
  2: { cbn [fst snd]. rewrite Hb. split; [reflexivity|]. split; [tauto|]. split; discriminate. }
  destruct (missing_columns names) as [|c rest].
  2: { cbn [fst snd]. rewrite Hb. split; [reflexivity|]. split; [tauto|]. split; discriminate. }
  destruct (scan_factor (dict_rows names (tail (csv_records f)))) as (r & l & Hscan).
  rewrite Hscan. destruct r as [[]|e]; cbn [fst snd with_mapping onspd_csv_path _pcds_to_lad _built].
  - split; [reflexivity|]. split; [apply fold_store_keeps|tauto].
  - split; [reflexivity|]. split; [apply fold_store_keeps|]. split; discriminate.
Qed.

(** ** The exit status of [main] and its output file *)

Lemma main_unfold fs a :
  main fs a =
  let described :=
    if describe a then [Print (describe_onspd_header fs (onspd a))] else [] in
  match inputs_of fs a with
  | None =>
      (described ++ [PrintErr ("Input file not found: " +:+ default EmptyString (given (infile a)))],
       Ok 2%Z)
  | Some inputs =>
      (described ++ (main_lookup fs a inputs).1, (main_lookup fs a inputs).2)
  end.
Proof.
  unfold main, inputs_of. destruct (given (infile a)) as [p|].
  - destruct (fs !! p) as [f|]; [|reflexivity].
    destruct (main_lookup fs a _) as [evs r]. reflexivity.
  - destruct (main_lookup fs a _) as [evs r]. reflexivity.
Qed.

Lemma main_lookup_built fs a pc rest ix :
  build fs (init (onspd a)) = (Ok tt, ix) ->
  main_lookup fs a (pc :: rest)
  = (match given (outfile a) with Some p => [OpenOut p] | None => [] end
     ++ WriteRow HEADER_ROW
        :: map (fun pc => WriteRow (expected_row (_pcds_to_lad ix) pc)) (pc :: rest)
        ++ match given (outfile a) with
           | Some p => [CloseOut; Print ("Wrote results to " +:+ p)]
           | None => []
           end,
     Ok 0%Z).
Proof.
  intros Hb. unfold main_lookup. rewrite Hb.
  rewrite (write_rows_built fs ix (pc :: rest) (build_ok_built _ _ _ Hb)). reflexivity.
Qed.

(** X7.  The exit status of [main].  A given input file that does not
    exist ends [main] with status 2, also when postcodes were given on the
    command line.  With no input at all, [main] returns 0 after a
    description and 1 (after the help text) otherwise, without trying to
    build the index, so a missing reference file goes unnoticed.  With
    inputs, [main] returns 0 when the index builds and otherwise ends in
    the exception of the build.  Rows are written only in the case that
    returns 0 with inputs. *)
Theorem main_exit_status fs a :
  match inputs_of fs a with
  | None => (main fs a).2 = Ok 2%Z /\ written_rows (main fs a).1 = []
  | Some [] =>
      (main fs a).2 = Ok (if describe a then 0%Z else 1%Z) /\
      written_rows (main fs a).1 = []
  | Some (_ :: _) =>
      match (build fs (init (onspd a))).1 with
      | Ok _ => (main fs a).2 = Ok 0%Z /\ written_rows (main fs a).1 <> []
      | Raise e => (main fs a).2 = Raise e /\ written_rows (main fs a).1 = []
      end
  end.
Proof.
  rewrite main_unfold. cbv zeta.
  assert (Hdescr : written_rows
            (if describe a then [Print (describe_onspd_header fs (onspd a))] else []) = []).
  { destruct (describe a); reflexivity. }
  destruct (inputs_of fs a) as [[|pc rest]|]; cbn [fst snd].
  - unfold main_lookup. destruct (describe a); split; reflexivity.
  - destruct (build fs (init (onspd a))) as [[[]|e] ix] eqn:Hb; cbn [fst].
    + rewrite (main_lookup_built fs a pc rest ix Hb). cbn [fst snd].
      split; [reflexivity|]. rewrite written_rows_app, Hdescr.
      destruct (given (outfile a)); discriminate.
    + rewrite (main_lookup_raises fs a (pc :: rest) e ix ltac:(discriminate) Hb).
      cbn [fst snd]. rewrite app_nil_r. split; [reflexivity|exact Hdescr].
  - rewrite written_rows_app, Hdescr. split; reflexivity.
Qed.

(** X8.  The output file is opened only when there are inputs and the
    index has been built; whenever it is opened it is named by
    [--outfile], it is closed again, the last thing [main] does is to
    announce it, and [main] returns 0.  A failing run therefore never
    truncates an existing results file. *)
Theorem main_opens_output_last fs a p :
  In (OpenOut p) (main fs a).1 ->
  given (outfile a) = Some p /\
  (build fs (init (onspd a))).1 = Ok tt /\
  (main fs a).2 = Ok 0%Z /\
  exists before rows,
    (main fs a).1
    = before ++ OpenOut p :: map WriteRow rows
      ++ [CloseOut; Print ("Wrote results to " +:+ p)] /\
    (forall q, ~ In (OpenOut q) before) /\
    written_rows before = [].
Proof.
  rewrite main_unfold. cbv zeta.
  set (described := if describe a then [Print (describe_onspd_header fs (onspd a))] else []).
  assert (Hd : (forall q, ~ In (OpenOut q) described) /\ written_rows described = []).
  { unfold described. destruct (describe a); split; try reflexivity.
    - intros q [H|[]]. discriminate.
    - intros q []. }
  destruct Hd as [Hd1 Hd2].
  destruct (inputs_of fs a) as [[|pc rest]|]; cbn [fst snd].
  - unfold main_lookup. intros H. apply in_app_or in H as [H|H]; [destruct (Hd1 _ H)|].
    destruct (describe a); cbn in H; [destruct H|]. destruct H as [H|[]]. discriminate.
  - destruct (build fs (init (onspd a))) as [[[]|e] ix] eqn:Hb; cbn [fst].
    + rewrite (main_lookup_built fs a pc rest ix Hb). cbn [fst snd].
      destruct (given (outfile a)) as [q|]; intros H.
      * apply in_app_or in H as [H|H]; [destruct (Hd1 _ H)|].
        cbn [app] in H. destruct H as [H|H].
        -- injection H as ->. split; [reflexivity|]. split; [reflexivity|].
           split; [reflexivity|].
           exists described, (HEADER_ROW :: map (expected_row (_pcds_to_lad ix)) (pc :: rest)).
           split; [|split; assumption].
           cbn [app map]. rewrite <- (map_map (expected_row (_pcds_to_lad ix)) WriteRow).
           reflexivity.
        -- exfalso. destruct H as [H|H]; [discriminate|].
           apply in_app_or in H as [H|H].
           ++ apply in_map_iff in H as (x & Hx & _). discriminate.
           ++ destruct H as [H|[H|[]]]; discriminate.
      * exfalso. apply in_app_or in H as [H|H]; [destruct (Hd1 _ H)|].
        cbn [app] in H. destruct H as [H|H]; [discriminate|].
        rewrite app_nil_r in H. apply in_map_iff in H as (x & Hx & _). discriminate.
    + rewrite (main_lookup_raises fs a (pc :: rest) e ix ltac:(discriminate) Hb).
      cbn [fst]. rewrite app_nil_r. intros H. destruct (Hd1 _ H).
  - intros H. apply in_app_or in H as [H|H]; [destruct (Hd1 _ H)|].
    destruct H as [H|[]]. discriminate.
Qed.

Lemma main_opens_output_last_witness :
  let a := {| postcodes := ["e16an"]; onspd := "onspd.csv"; infile := None;
              outfile := Some "out.csv"; describe := true |} in
  In (OpenOut "out.csv") (main sample_fs a).1 /\ (main sample_fs a).2 = Ok 0%Z.
Proof.
  cbv zeta.
  assert (H : In (OpenOut "out.csv")
                (main sample_fs
                   {| postcodes := ["e16an"]; onspd := "onspd.csv"; infile := None;
                      outfile := Some "out.csv"; describe := true |}).1).
  { vm_compute. right. left. reflexivity. }
  split; [exact H|].
  exact (proj1 (proj2 (proj2 (main_opens_output_last _ _ _ H)))).
Defined.

(** ** The description of a reference file *)

Lemma string_app_assoc a b c : (a +:+ b) +:+ c = a +:+ (b +:+ c).
Proof.
  induction a as [|x a IH]; [reflexivity|].
  change (String x ((a +:+ b) +:+ c) = String x (a +:+ (b +:+ c))).
  rewrite IH. reflexivity.
Qed.

Lemma string_app_nil_r a : a +:+ EmptyString = a.
Proof.
  induction a as [|x a IH]; [reflexivity|].
  change (String x (a +:+ EmptyString) = String x a). rewrite IH. reflexivity.
Qed.

(** Joining a non-empty list and then more items. *)
Lemma join_app sep xs ys :
  xs <> [] ->
  join sep (xs ++ ys)
  = join sep xs +:+ match ys with [] => EmptyString | _ :: _ => sep +:+ join sep ys end.
Proof.
  induction xs as [|x xs IH]; [congruence|]. intros _.
  destruct xs as [|x' xs].
  - destruct ys as [|y ys]; [symmetry; apply string_app_nil_r|reflexivity].
  - change (join sep ((x :: x' :: xs) ++ ys))
      with (x +:+ sep +:+ join sep ((x' :: xs) ++ ys)).
    rewrite IH by discriminate.
    change (join sep (x :: x' :: xs)) with (x +:+ sep +:+ join sep (x' :: xs)).
    rewrite !string_app_assoc. reflexivity.
Qed.

Lemma filter_sublist {A : Type} (f : A -> bool) l : sublist (List.filter f l) l.
Proof.
  induction l as [|x l IH]; cbn; [constructor|].
  destruct (f x); constructor; exact IH.
Qed.

(** X9.  [describe_onspd_header] does not look for the required columns.
    For a path that does not exist it returns the not-found message.  For
    an existing file, whatever its header, the text starts with the three
    fixed lines, which name [pcds] and [lad25cd] as detected, and goes on
    with one line for each of the six optional columns that the header has
    (names compared after stripping), in the order of the table.  So a
    file on which [build] raises [ValueError] for a missing required
    column is still described as having that column. *)
Theorem describe_ignores_required_columns fs path :
  match fs !! path with
  | None => describe_onspd_header fs path = "ONSPD file not found: " +:+ path
  | Some f =>
      exists found,
        describe_onspd_header fs path
        = ("Detected ONSPD columns:" +:+ newline
           +:+ "- pcds: Postcode (spaced)" +:+ newline
           +:+ "- lad25cd: Local Authority District code (used to identify London boroughs)")
          +:+ match found with
              | [] => EmptyString
              | _ :: _ =>
                  newline +:+ join newline (map (fun cd => "- " +:+ cd.1 +:+ ": " +:+ cd.2) found)
              end /\
        sublist found describe_extras /\
        (forall cd, In cd found <->
                    In cd describe_extras /\
                    In cd.1 (map strip (default [] (head (csv_records f))))) /\
        (raised_ValueError (build fs (init path)).1 ->
         exists c, In c REQUIRED_COLUMNS /\ ~ In c (default [] (head (csv_records f))))
  end.
Proof.
  unfold describe_onspd_header. destruct (fs !! path) as [f|] eqn:Hf; [|reflexivity].
  exists (List.filter
            (fun cd : string * string =>
               contains (map strip (default [] (head (csv_records f)))) cd.1)
            describe_extras).
  split; [|split; [apply filter_sublist|split]].
  - rewrite join_app by discriminate.
    destruct (List.filter _ describe_extras); reflexivity.
  - intros cd. rewrite filter_In, contains_In. reflexivity.
  - unfold build. cbn [_built init onspd_csv_path]. rewrite Hf. unfold fieldnames.
    destruct (head (csv_records f)) as [names|]; [|intros []].
    destruct (missing_columns names) as [|c rest] eqn:Hmiss.
    + destruct (scan _ _) as [[[]|e] m] eqn:Hs; cbn; [intros []|].
      apply scan_raises in Hs as [msg ->]. intros [].
    + intros _. exists c. cbn [default]. eapply missing_columns_cons, Hmiss.
Qed.

Example describe_file_without_columns :
  let fs : gmap string file := {[ "onspd.csv" := onspd_file [["postcode"; " lat "]] ]} in
  raised_ValueError (build fs (init "onspd.csv")).1 /\
  describe_onspd_header fs "onspd.csv"
  = "Detected ONSPD columns:" +:+ newline
    +:+ "- pcds: Postcode (spaced)" +:+ newline
    +:+ "- lad25cd: Local Authority District code (used to identify London boroughs)"
    +:+ newline +:+ "- lat: Latitude".
Proof. vm_compute. split; [exact I|reflexivity]. Qed.

(** ** Feature names that are no fields of the request *)


Section UnknownFeature.

Variable np_expm1 : float -> float.

Variable round2 : float -> float.


End UnknownFeature.


(** ** What validation says about the numbers of a request *)

Lemma SFcompare_finite_refl s m e :
  SFcompare (S754_finite s m e) (S754_finite s m e) = Some Eq.
Proof.
  cbn. destruct s; rewrite Z.compare_refl, Pos.compare_refl; reflexivity.
Qed.

(** A number strictly below a finite bound and at or above a finite bound
    is neither a NaN nor an infinity. *)
Lemma between_finite lo x hi :
  PrimFloat.is_finite lo = true -> PrimFloat.is_finite hi = true ->
  (PrimFloat.ltb lo x = true \/ PrimFloat.leb lo x = true) ->
  PrimFloat.ltb x hi = true ->
  PrimFloat.is_finite x = true.
Proof.
  unfold PrimFloat.is_finite, PrimFloat.is_nan, PrimFloat.is_infinity.
  rewrite !FloatAxioms.eqb_spec, !FloatAxioms.abs_spec, !FloatAxioms.ltb_spec, !FloatAxioms.leb_spec.
  change (Prim2SF infinity) with (S754_infinity false).
  unfold SFeqb, SFltb, SFleb.
  destruct (Prim2SF lo) as [sl|sl| |sl ml el]; destruct (Prim2SF hi) as [sh|sh| |sh mh eh];
    destruct (Prim2SF x) as [sx|sx| |sx mx ex];
    cbn [SFabs]; rewrite ?SFcompare_finite_refl;
    try (destruct sl); try (destruct sh); try (destruct sx); cbn;
    intros Hlo Hhi Hx Hy; try discriminate; try reflexivity;
    try (destruct Hx; discriminate).
Qed.

(** X11.  A request that passes validation has a finite floor area and a
    finite distance to the station (no NaN, no infinity), because both are
    bounded on both sides.  Latitude, longitude and the four text fields
    are not constrained at all: replacing them by any values, NaN
    included, keeps a valid request valid. *)
Theorem validated_numbers_are_finite x :
  App.validate x = true ->
  PrimFloat.is_finite (App.floor_area x) = true /\
  PrimFloat.is_finite (App.distance_to_station_km x) = true /\
  forall property_type tenure postcode borough lat lon,
    App.validate
      {| App.property_type := property_type; App.tenure := tenure;
         App.postcode := postcode; App.borough := borough;
         App.floor_area := App.floor_area x; App.bedrooms := App.bedrooms x;
         App.bathrooms := App.bathrooms x;
         App.distance_to_station_km := App.distance_to_station_km x;
         App.sale_year := App.sale_year x; App.sale_quarter := App.sale_quarter x;
         App.lat := lat; App.lon := lon |} = true.
Proof.
  intros H. split; [|split; [|intros; exact H]].
  - unfold App.validate in H. repeat (apply andb_true_iff in H as [H ?]).
    apply (between_finite 5%float _ 1000%float); auto.
  - unfold App.validate in H. repeat (apply andb_true_iff in H as [H ?]).
    apply (between_finite 0%float _ 20%float); auto.
Qed.

Lemma validated_numbers_are_finite_witness :
  App.validate sample_request = true /\
  PrimFloat.is_finite (App.floor_area sample_request) = true /\
  App.validate
    {| App.property_type := EmptyString; App.tenure := EmptyString;
       App.postcode := EmptyString; App.borough := EmptyString;
       App.floor_area := 50%float; App.bedrooms := 1; App.bathrooms := 1;
       App.distance_to_station_km := 0.5%float;
       App.sale_year := 2020; App.sale_quarter := 1;
       App.lat := PrimFloat.nan; App.lon := PrimFloat.infinity |} = true.
Proof.
  pose proof (validated_numbers_are_finite sample_request ltac:(vm_compute; reflexivity))
    as (Hfin & _ & Hfree).
  split; [vm_compute; reflexivity|]. split; [exact Hfin|].
  exact (Hfree EmptyString EmptyString EmptyString EmptyString
               PrimFloat.nan PrimFloat.infinity).
Defined.

(** ** Runs of the training script that fail *)

Section FailingRuns.

Context {model : Type}.

Variable lib : Train.library model.

(** A call made by a sequence is made by its first part, or by the rest
    after the first part has returned. *)
Lemma in_calls_bind {A B : Type} (r : Train.run model A) (k : A -> Train.run model B) c :
  In c (Train.calls (r ≫= k)) ->
  In c (Train.calls r) \/ exists a, Train.outcome r = Ok a /\ In c (Train.calls (k a)).
Proof.
  unfold mbind, Train.run_mbind, Train.run_bind.
  destruct (Train.outcome r) as [a|e]; cbn [Train.calls]; [|tauto].
  intros H. apply in_app_or in H as [H|H]; [tauto|]. right. exists a. tauto.
Qed.

Lemma in_calls_external {A B : Type} (c0 : Train.call model) (r : result A)
  (k : A -> Train.run model B) c :
  In c (Train.calls (Train.external c0 r ≫= k)) ->
  c = c0 \/ exists a, r = Ok a /\ In c (Train.calls (k a)).
Proof.
  intros H. apply in_calls_bind in H as [H|(a & Hr & H)].
  - left. destruct H as [H|[]]. symmetry. exact H.
  - right. exists a. split; [exact Hr|exact H].
Qed.

Lemma in_calls_internal {A B : Type} (r : result A) (k : A -> Train.run model B) c :
  In c (Train.calls (Train.internal r ≫= k)) ->
  exists a, r = Ok a /\ In c (Train.calls (k a)).
Proof.
  intros H. apply in_calls_bind in H as [[]|(a & Hr & H)].
  exists a. split; [exact Hr|exact H].
Qed.

Lemma cv_fold_no_dump df acc fold c :
  In c (Train.calls (Train.cv_fold lib df acc fold)) -> is_dump c = false.
Proof.
  unfold Train.cv_fold. intros H.
  apply in_calls_internal in H as (tp & _ & H).
  apply in_calls_internal in H as (vp & _ & H).
  apply in_calls_external in H as [->|(m & _ & H)]; [reflexivity|].
  apply in_calls_external in H as [->|(p & _ & H)]; [reflexivity|].
  apply in_calls_internal in H as (va & _ & H).
  apply in_calls_internal in H as (y & _ & H).
  destruct H.
Qed.

Lemma cv_loop_no_dump df folds : forall acc c,
  In c (Train.calls (Train.cv_loop lib df folds acc)) -> is_dump c = false.
Proof.
  induction folds as [|fold folds IH]; intros acc c H; [destruct H|].
  cbn [Train.cv_loop] in H. apply in_calls_bind in H as [H|(acc1 & _ & H)].
  - eapply cv_fold_no_dump, H.
  - eapply IH, H.
Qed.

(** X12.  The script writes an artifact only at the end of a run in which
    everything before succeeded.  Whenever [joblib.dump] is called, the
    dataset was read, the 5-fold split and the whole cross-validation loop
    returned, the error was computed, and the final fit returned; the
    file is [model/house_price_catboost.joblib], and the dumped dict holds
    the model that the final fit returned together with the fixed feature
    lists and target name. *)
Theorem dump_only_after_final_fit art path :
  In (Train.CallDump model art path) (Train.calls (Train.script lib)) ->
  path = "model/house_price_catboost.joblib" /\
  art = script_artifacts (Train.art_model model art) /\
  exists df0 df groups folds acc mae final_pool,
    Train.read_parquet model lib Train.DATA = Ok df0 /\
    Train.group_kfold_split model lib 5 df groups = Ok folds /\
    Train.outcome (Train.cv_loop lib df folds ([], [])) = Ok acc /\
    Train.mean_absolute_error model lib acc.2 acc.1 = Ok mae /\
    Train.make_pool df None = Ok final_pool /\
    Train.catboost_fit model lib Train.final_params final_pool None None
    = Ok (Train.art_model model art).
Proof.
  unfold Train.script. intros H.
  apply in_calls_external in H as [H|([] & _ & H)]; [discriminate|].
  apply in_calls_external in H as [H|(df0 & Hread & H)]; [discriminate|].
  apply in_calls_internal in H as (df1 & _ & H).
  apply in_calls_internal in H as (price & _ & H).
  apply in_calls_internal in H as (log_price & _ & H).
  cbv zeta in H.
  apply in_calls_internal in H as (years & _ & H).
  apply in_calls_internal in H as (buckets & _ & H).
  cbv zeta in H.
  set (df := Train.with_column "year_group" buckets _) in H.
  apply in_calls_internal in H as (groups & _ & H).
  apply in_calls_external in H as [H|(folds & Hsplit & H)]; [discriminate|].
  apply in_calls_bind in H as [H|(acc & Hcv & H)].
  { apply cv_loop_no_dump in H. discriminate. }
  apply in_calls_external in H as [H|(mae & Hmae & H)]; [discriminate|].
  apply in_calls_external in H as [H|([] & _ & H)]; [discriminate|].
  apply in_calls_internal in H as (final_pool & Hpool & H).
  apply in_calls_external in H as [H|(final_model & Hfit & H)]; [discriminate|].
  cbv zeta in H.
  apply in_calls_external in H as [H|([] & _ & H)].
  - injection H as -> ->. split; [reflexivity|]. split; [reflexivity|].
    exists df0, df, groups, folds, acc, mae, final_pool. cbn [Train.art_model]. tauto.
  - destruct H as [H|[]]. discriminate.
Qed.

(** X13.  A dataset that lacks one of the fourteen columns the script
    needs (the target and the thirteen features) stops the script in the
    filter step with a [KeyError]: the model directory has been created and
    the dataset read, and no split, fit, prediction or dump is made. *)
Theorem missing_column_stops_before_any_model_step df0 c :
  Train.path_mkdir model lib Train.MODEL_DIR = Ok tt ->
  Train.read_parquet model lib Train.DATA = Ok df0 ->
  In c (Train.TARGET :: Train.FEATS) ->
  ~ In c (Train.columns df0) ->
  exists missing,
    In c missing /\
    Train.script lib
    = Train.Run [Train.CallMkdir model "model";
                 Train.CallReadParquet model "data/london_ppd_prepared.parquet"]
                (Raise (KeyError (join ", " missing))).
Proof.
  intros Hmk Hread Hc Hcol.
  assert (Hin : In c (Train.missing_labels df0 (Train.TARGET :: Train.FEATS))).
  { unfold Train.missing_labels. apply filter_In. split; [exact Hc|].
    destruct (contains (Train.columns df0) c) eqn:E; [|reflexivity].
    apply contains_In in E. contradiction. }
  exists (Train.missing_labels df0 (Train.TARGET :: Train.FEATS)). split; [exact Hin|].
  assert (Hdrop : Train.dropna (Train.TARGET :: Train.FEATS) df0
                  = Raise (KeyError (join ", " (Train.missing_labels df0
                                                  (Train.TARGET :: Train.FEATS))))).
  { unfold Train.dropna.
    destruct (Train.missing_labels df0 (Train.TARGET :: Train.FEATS)) as [|c0 rest];
      [destruct Hin|reflexivity]. }
  unfold Train.script. rewrite Hmk.
  cbn [mbind Train.run_mbind Train.run_bind Train.external Train.outcome Train.calls].
  rewrite Hread.
  cbn [mbind Train.run_mbind Train.run_bind Train.external Train.internal
       Train.outcome Train.calls].
  rewrite Hdrop. reflexivity.
Qed.

End FailingRuns.

Lemma dump_only_after_final_fit_witness :
  In (Train.CallDump unit (script_artifacts tt) "model/house_price_catboost.joblib")
     (Train.calls (Train.script sample_library)) /\
  exists df0 df groups folds acc mae final_pool,
    Train.read_parquet unit sample_library Train.DATA = Ok df0 /\
    Train.group_kfold_split unit sample_library 5 df groups = Ok folds /\
    Train.outcome (Train.cv_loop sample_library df folds ([], [])) = Ok acc /\
    Train.mean_absolute_error unit sample_library acc.2 acc.1 = Ok mae /\
    Train.make_pool df None = Ok final_pool /\
    Train.catboost_fit unit sample_library Train.final_params final_pool None None
    = Ok tt.
Proof.
  assert (H : In (Train.CallDump unit (script_artifacts tt)
                    "model/house_price_catboost.joblib")
                 (Train.calls (Train.script sample_library))).
  { vm_compute. do 10 right. left. reflexivity. }
  split; [exact H|].
  exact (proj2 (proj2 (dump_only_after_final_fit sample_library _ _ H))).
Defined.

Lemma missing_column_stops_before_any_model_step_witness :
  exists missing,
    In "lat" missing /\
    Train.script narrow_library
    = Train.Run [Train.CallMkdir unit "model";
                 Train.CallReadParquet unit "data/london_ppd_prepared.parquet"]
                (Raise (KeyError (join ", " missing))).
Proof.
  apply (missing_column_stops_before_any_model_step narrow_library
           {| Train.columns := ["price_paid"]; Train.rows := [] |} "lat").
  - reflexivity.
  - reflexivity.
  - cbn. tauto.
  - cbn. intros [H|[]]. discriminate.
Defined.

(** ** The two postcode keys of the repository *)

Lemma lstrip_upper l : lstrip_by isspace (upper_l l) = upper_l (lstrip_by isspace l).
Proof.
  induction l as [|c l IH]; [reflexivity|]. cbn [upper_l map lstrip_by].
  rewrite isspace_upper_char. destruct (isspace c); [exact IH|reflexivity].
Qed.

Lemma strip_upper l : strip_l (upper_l l) = upper_l (strip_l l).
Proof.
  unfold strip_l, strip_by, rstrip_by. rewrite lstrip_upper.
  unfold upper_l at 1. rewrite <- map_rev. fold (upper_l (rev (lstrip_by isspace l))).
  rewrite lstrip_upper. unfold upper_l. rewrite map_rev. reflexivity.
Qed.

Lemma remove_blanks_upper l : remove_blanks_l (upper_l l) = upper_l (remove_blanks_l l).
Proof.
  unfold remove_blanks_l, upper_l. induction l as [|c l IH]; [reflexivity|].
  cbn [map List.filter]. rewrite upper_char_blank.
  destruct (is_blank c); cbn [negb map]; rewrite IH; reflexivity.
Qed.

Lemma lstrip_remove_blanks l :
  lstrip_by isspace (remove_blanks_l l) = remove_blanks_l (lstrip_by isspace l).
Proof.
  unfold remove_blanks_l. induction l as [|c l IH]; [reflexivity|].
  cbn [List.filter lstrip_by]. destruct (is_blank c) eqn:Hb; cbn [negb].
  - rewrite (blank_isspace c Hb). exact IH.
  - cbn [lstrip_by]. destruct (isspace c); [exact IH|].
    cbn [List.filter]. rewrite Hb. reflexivity.
Qed.

Lemma strip_remove_blanks l :
  strip_l (remove_blanks_l l) = remove_blanks_l (strip_l l).
Proof.
  unfold strip_l, strip_by, rstrip_by. rewrite lstrip_remove_blanks.
  unfold remove_blanks_l at 1. rewrite <- filter_rev.
  fold (remove_blanks_l (rev (lstrip_by isspace l))).
  rewrite lstrip_remove_blanks. unfold remove_blanks_l. rewrite filter_rev. reflexivity.
Qed.

Lemma remove_blanks_twice l : remove_blanks_l (remove_blanks_l l) = remove_blanks_l l.
Proof. apply remove_blanks_fixed, remove_blanks_free. Qed.

Lemma upper_twice l : upper_l (upper_l l) = upper_l l.
Proof. apply upper_l_fixed, upper_l_is_fixed. Qed.

(** The significant characters of a key made by [clean_postcode]. *)
Lemma compact_of_clean l :
  remove_blanks_l (upper_l (strip_l (remove_blanks_l (upper_l l))))
  = remove_blanks_l (upper_l (strip_l l)).
Proof.
  rewrite strip_remove_blanks, remove_blanks_upper, remove_blanks_twice.
  rewrite <- remove_blanks_upper, strip_upper, upper_twice. reflexivity.
Qed.

Lemma clean_of_normalize l :
  remove_blanks_l (upper_l (normalize_l l)) = remove_blanks_l (upper_l (strip_l l)).
Proof.
  destruct (normalize_l_trimmed l) as [_ Hf]. rewrite (upper_l_fixed _ Hf).
  unfold normalize_l.
  destruct (length (remove_blanks_l (upper_l (strip_l l))) <? 5).
  - reflexivity.
  - rewrite remove_blanks_spaced by apply remove_blanks_free. reflexivity.
Qed.

(** X14.  The data loader keys rows by the compact form of a postcode
    (upper case, no spaces) and the index by the spaced normal form.  The
    two fit together: compacting a normal form gives the compact form of
    the stripped postcode, and, for a postcode with at least five
    significant characters, normalizing its compact form gives the normal
    form of the postcode itself, so a lookup by the loader's key finds
    what a lookup by the original spelling finds. *)
Theorem compact_and_normal_forms_agree :
  (forall p,
      LoadData.clean_postcode (normalize_postcode p) = LoadData.clean_postcode (strip p)) /\
  (forall p,
      5 <= String.length (remove_blanks (upper (strip p))) ->
      normalize_postcode (LoadData.clean_postcode p) = normalize_postcode p) /\
  (forall fs ix p,
      5 <= String.length (remove_blanks (upper (strip p))) ->
      postcode_to_borough fs ix (LoadData.clean_postcode p) = postcode_to_borough fs ix p).
Proof.
  assert (Hnorm : forall p,
             5 <= String.length (remove_blanks (upper (strip p))) ->
             normalize_postcode (LoadData.clean_postcode p) = normalize_postcode p).
  { intros p Hlen. rewrite <- compact_list, string_of_list_length in Hlen.
    unfold LoadData.clean_postcode, remove_blanks, upper, normalize_postcode.
    rewrite !lift_compose. unfold lift. f_equal. unfold normalize_l.
    rewrite compact_of_clean. apply Nat.ltb_ge in Hlen. rewrite Hlen. reflexivity. }
  split; [|split; [exact Hnorm|]].
  - intros p. unfold LoadData.clean_postcode, remove_blanks, upper, strip, normalize_postcode.
    rewrite !lift_compose. unfold lift. rewrite clean_of_normalize. reflexivity.
  - intros fs ix p Hlen. unfold postcode_to_borough. rewrite (Hnorm p Hlen). reflexivity.
Qed.

Lemma compact_and_normal_forms_agree_witness :
  5 <= String.length (remove_blanks (upper (strip "sw1a 1aa"))) /\
  LoadData.clean_postcode "sw1a 1aa" = "SW1A1AA" /\
  postcode_to_borough sample_fs sample_index (LoadData.clean_postcode "sw1a 1aa")
  = postcode_to_borough sample_fs sample_index "sw1a 1aa".
Proof.
  split; [vm_compute; lia|]. split; [reflexivity|].
  apply (proj2 (proj2 compact_and_normal_forms_agree)). vm_compute. lia.
Defined.

(** ** The fallback London filter of the data loader *)

Lemma prefix_trans p : forall q s,
  String.prefix p q = true -> String.prefix q s = true -> String.prefix p s = true.
Proof.
  induction p as [|a p IH]; intros q s Hpq Hqs; [destruct s; reflexivity|].
  destruct q as [|b q]; [discriminate|]. destruct s as [|c s]; [discriminate|].
  cbn in *. destruct (ascii_dec a b) as [->|]; [|discriminate].
  destruct (ascii_dec b c) as [->|]; [|discriminate].
  eapply IH; eassumption.
Qed.

Lemma startswith_any_iff prefixes s :
  LoadData.startswith_any prefixes s = true <->
  exists p, In p prefixes /\ String.prefix p s = true.
Proof. unfold LoadData.startswith_any. apply existsb_exists. Qed.

(** Membership in a list that is written out. *)
Ltac in_list := cbn; repeat (first [left; reflexivity | right]).

(** X15.  The fallback London filter keeps a postcode exactly when it
    starts with E, N or W, or with one of SE, SW, HA, UB, TW, IG, RM, DA,
    BR, CR, SM and KT; the prefixes EC, NW, WC and EN of the table add
    nothing.  So every postcode that begins with E, N or W is kept,
    wherever it lies.  Extra prefixes can only add rows, and an empty
    extra prefix keeps every row. *)
Theorem london_mask_by_first_letters extra pc :
  (LoadData.london_mask [] pc = true <->
   LoadData.startswith_any
     ["E"; "N"; "W"; "SE"; "SW"; "HA"; "UB"; "TW"; "IG"; "RM"; "DA"; "BR"; "CR"; "SM"; "KT"]
     pc = true) /\
  (forall c rest,
      c = "E"%char \/ c = "N"%char \/ c = "W"%char ->
      LoadData.london_mask extra (String c rest) = true) /\
  (LoadData.london_mask [] pc = true -> LoadData.london_mask extra pc = true) /\
  (In EmptyString extra -> LoadData.london_mask extra pc = true).
Proof.
  unfold LoadData.london_mask. split; [|split; [|split]].
  - rewrite !startswith_any_iff. split.
    + intros (p & Hp & Hpre). cbn in Hp.
      repeat (destruct Hp as [<-|Hp];
              [first [ solve [eexists; split; [|exact Hpre]; in_list]
                     | solve [exists "E"; split;
                              [in_list|eapply prefix_trans; [|exact Hpre]; reflexivity]]
                     | solve [exists "N"; split;
                              [in_list|eapply prefix_trans; [|exact Hpre]; reflexivity]]
                     | solve [exists "W"; split;
                              [in_list|eapply prefix_trans; [|exact Hpre]; reflexivity]] ]|]).
      destruct Hp.
    + intros (p & Hp & Hpre). exists p. split; [|exact Hpre].
      cbn in Hp. cbn. tauto.
  - intros c rest Hc. apply startswith_any_iff.
    destruct Hc as [-> | [-> | ->]]; [exists "E"|exists "N"|exists "W"];
      (split; [apply in_or_app; left; in_list|destruct rest; reflexivity]).
  - rewrite !startswith_any_iff. intros (p & Hp & Hpre). exists p.
    split; [|exact Hpre]. rewrite app_nil_r in Hp. apply in_or_app. left. exact Hp.
  - intros He. apply startswith_any_iff. exists EmptyString.
    split; [apply in_or_app; right; exact He|destruct pc; reflexivity].
Qed.

Lemma london_mask_by_first_letters_witness :
  LoadData.london_mask [] "EH11AA" = true /\
  LoadData.london_mask [""] "M11AA" = true /\
  LoadData.london_mask [] "M11AA" = false.
Proof.
  split; [|split].
  - apply (proj1 (proj2 (london_mask_by_first_letters [] "EH11AA")) "E"%char "H11AA").
    left. reflexivity.
  - apply (proj2 (proj2 (proj2 (london_mask_by_first_letters [""] "M11AA")))).
    left. reflexivity.
  - reflexivity.
Defined.

(** ** The code tables of the data loader *)

(** X16.  The property type of a cleaned row is always one of the five
    names: the five codes are translated, and a missing or unknown code
    becomes Other.  Tenure is handled differently: F and L are translated
    and every other cell, missing ones included, is passed through
    unchanged.  The new-build flag is 1 for Y, 0 for N and missing for
    everything else. *)
Theorem code_tables_of_the_loader :
  (forall c, In (LoadData.map_property_type c)
                ["Detached"; "Semi-Detached"; "Terraced"; "Flat/Maisonette"; "Other"]) /\
  (forall c, ~ In c [Some "D"; Some "S"; Some "T"; Some "F"] ->
             LoadData.map_property_type c = "Other") /\
  (forall c, c <> Some "F" -> c <> Some "L" -> LoadData.map_tenure c = c) /\
  (forall c, LoadData.map_new_build c = Some 1%Z <-> c = Some "Y") /\
  (forall c, LoadData.map_new_build c = Some 0%Z <-> c = Some "N") /\
  (forall c, c <> Some "Y" -> c <> Some "N" -> LoadData.map_new_build c = None).
Proof.
  assert (Hpt : forall s name,
             LoadData.PROPERTY_TYPE_MAP !! s = Some name ->
             In (s, name) [("D", "Detached"); ("S", "Semi-Detached"); ("T", "Terraced");
                           ("F", "Flat/Maisonette"); ("O", "Other")]).
  { intros s name H. apply list_elem_of_In. apply elem_of_list_to_map_2. exact H. }
  assert (Hten : forall s name,
             LoadData.TENURE_MAP !! s = Some name ->
             In (s, name) [("F", "Freehold"); ("L", "Leasehold")]).
  { intros s name H. apply list_elem_of_In. apply elem_of_list_to_map_2. exact H. }
  assert (Hyn : forall s v,
             LoadData.YN_MAP !! s = Some v -> In (s, v) [("Y", 1%Z); ("N", 0%Z)]).
  { intros s v H. apply list_elem_of_In. apply elem_of_list_to_map_2. exact H. }
  split; [|split; [|split; [|split; [|split]]]].
  - intros [s|]; unfold LoadData.map_property_type; cbn [mbind option_bind]; [|in_list].
    destruct (LoadData.PROPERTY_TYPE_MAP !! s) as [name|] eqn:E; [|in_list].
    apply Hpt in E. cbn in E.
    repeat (destruct E as [E|E]; [injection E as <- <-; in_list|]). destruct E.
  - intros [s|] Hc; unfold LoadData.map_property_type; cbn [mbind option_bind];
      [|reflexivity].
    destruct (LoadData.PROPERTY_TYPE_MAP !! s) as [name|] eqn:E; [|reflexivity].
    apply Hpt in E. cbn in E.
    repeat (destruct E as [E|E];
            [injection E as <- <-; first [reflexivity | exfalso; apply Hc; in_list]|]).
    destruct E.
  - intros [s|] HF HL; unfold LoadData.map_tenure; cbn [mbind option_bind]; [|reflexivity].
    destruct (LoadData.TENURE_MAP !! s) as [name|] eqn:E; [|reflexivity].
    apply Hten in E. cbn in E.
    destruct E as [E|[E|[]]]; injection E as <- <-; congruence.
  - intros [s|]; unfold LoadData.map_new_build; cbn [mbind option_bind]; split;
      try discriminate.
    + intros E. apply Hyn in E. cbn in E.
      destruct E as [E|[E|[]]]; injection E as <-; [reflexivity|discriminate].
    + intros [= ->]. reflexivity.
  - intros [s|]; unfold LoadData.map_new_build; cbn [mbind option_bind]; split;
      try discriminate.
    + intros E. apply Hyn in E. cbn in E.
      destruct E as [E|[E|[]]]; injection E as <-; [discriminate|reflexivity].
    + intros [= ->]. reflexivity.
  - intros [s|] HY HN; unfold LoadData.map_new_build; cbn [mbind option_bind];
      [|reflexivity].
    destruct (LoadData.YN_MAP !! s) as [v|] eqn:E; [|reflexivity].
    apply Hyn in E. cbn in E.
    destruct E as [E|[E|[]]]; injection E as <- <-; congruence.
Qed.

Lemma code_tables_of_the_loader_witness :
  LoadData.map_property_type (Some "X") = "Other" /\
  LoadData.map_tenure (Some "U") = Some "U" /\
  LoadData.map_new_build (Some "y") = None.
Proof.
  destruct code_tables_of_the_loader as (_ & Hpt & Hten & _ & _ & Hnb).
  split; [|split].
  - apply Hpt. cbn. intros H. repeat (destruct H as [H|H]; [discriminate|]). exact H.
  - apply Hten; discriminate.
  - apply Hnb; discriminate.
Defined.

(** ** The estimate for a well-formed artifact *)

Section Estimate.

Variable np_expm1 : float -> float.

Variable round2 : float -> float.

(** X17.  For an artifact whose feature names are distinct fields of the
    request and whose model returns at least one prediction for the row
    of those fields, taken in the order of the feature list, the handler
    returns the estimate [round2 (np_expm1 p)] of the first prediction [p]
    with the fixed explanation block, and leaves the global as it was;
    predictions after the first are ignored. *)
Theorem predict_returns_the_estimate d names model_predict p rest x :
  d !! "features" = Some (App.EStrList names) ->
  d !! "model" = Some (App.EModel model_predict) ->
  NoDup names ->
  Forall (fun k => is_Some (App.assoc k App.FIELDS)) names ->
  model_predict [field_values x names] = Ok (p :: rest) ->
  App.predict np_expm1 round2 {| App.ART := Some (App.LDict d) |} x
  = (Ok {| App.estimated_price_gbp := round2 (np_expm1 p); App.explain := App.EXPLAIN |},
     {| App.ART := Some (App.LDict d) |}).
Proof.
  intros Hf Hm Hnd Hfields Hp.
  destruct (comprehension_fields x names [] Hnd (fun _ _ H => H) Hfields)
    as (row & Hrow & Hvals).
  unfold App.predict, App.predict_body. cbn [App.ART mbind result_bind App.getitem].
  rewrite Hf. cbn [App.iterate mbind result_bind]. rewrite Hrow.
  cbn [mbind result_bind]. rewrite Hm. cbn [App.call_predict mbind result_bind].
  rewrite Hvals. cbn [map app]. rewrite Hp. reflexivity.
Qed.

End Estimate.

Lemma predict_returns_the_estimate_witness :
  App.predict (fun v => PrimFloat.mul v 2%float) (fun v => v)
    {| App.ART := Some (App.LDict {[ "features" := App.EStrList ["floor_area"; "bedrooms"];
                                     "model" := App.EModel (fun X => Ok [3%float; 4%float]) ]}) |}
    sample_request
  = (Ok {| App.estimated_price_gbp := 6%float; App.explain := App.EXPLAIN |},
     {| App.ART := Some (App.LDict {[ "features" := App.EStrList ["floor_area"; "bedrooms"];
                                      "model" := App.EModel (fun X => Ok [3%float; 4%float]) ]}) |}).
Proof.
  apply (predict_returns_the_estimate (fun v => PrimFloat.mul v 2%float) (fun v => v)
           _ ["floor_area"; "bedrooms"] (fun X => Ok [3%float; 4%float]) 3%float [4%float]
           sample_request).
  - reflexivity.
  - reflexivity.
  - repeat (apply NoDup_cons; split;
            [rewrite list_elem_of_In; cbn; intros H;
             repeat (destruct H as [H|H]; [discriminate|]); exact H|]).
    apply NoDup_nil. exact I.
  - repeat constructor; vm_compute; eauto.
  - reflexivity.
Defined.

(** ** The inputs read from a file *)

Lemma strip_string_idempotent s : strip (strip s) = strip s.
Proof.
  unfold strip. rewrite lift_compose. unfold lift, strip_l.
  rewrite strip_idempotent. reflexivity.
Qed.

(** X18.  The inputs that [main] takes from [--infile] are the stripped
    lines that are not blank, in file order: each of them is non-empty and
    has no surrounding whitespace, every line with a non-blank character
    contributes its stripped text, and a line of whitespace only
    contributes nothing. *)
Theorem infile_inputs_are_stripped_lines lines :
  Forall (fun s => s <> EmptyString /\ strip s = s) (infile_inputs lines) /\
  sublist (infile_inputs lines) (map strip lines) /\
  (forall s, In s (infile_inputs lines) <->
             s <> EmptyString /\ exists line, In line lines /\ s = strip line).
Proof.
  unfold infile_inputs. split; [|split].
  - apply Forall_forall. intros s Hs. apply list_elem_of_In, filter_In in Hs as [Hs Ht].
    split; [apply truthy_nonempty, Ht|].
    apply in_map_iff in Hs as (line & <- & _). apply strip_string_idempotent.
  - apply filter_sublist.
  - intros s. rewrite filter_In, in_map_iff. split.
    + intros [(line & <- & Hline) Ht]. split; [apply truthy_nonempty, Ht|]. eauto.
    + intros [Hne (line & Hline & ->)]. split; [eauto|].
      destruct (strip line); [congruence|reflexivity].
Qed.
